(** * Photovoltaic dashboards: the synthetic generator and the filter/KPI pipeline

    A shallow embedding of [src/app_v1.py] (module [AppV1]) and of
    [src/streamlit_app.py] (module [StreamlitApp]).

    Numbers.  The numeric columns hold Python floats.  Every finite float is
    a rational number, so a cell is modelled as a [Q]; the arithmetic of the
    model is exact (no rounding, no overflow), and a missing cell of the CSV
    (NaN) is an explicit [None].  Results that are equalities between terms
    built by the same operations are stated with Leibniz equality, so they
    do not depend on how the operations round; results that need arithmetic
    are stated with [==] on [Q].

    Library functions the code calls are either written out ([np.maximum],
    [np.arange], [pd.date_range], boolean indexing, [isin], [sum], [max])
    or taken as parameters of a section ([np.sin], the standard normal draws
    behind [np.random.normal], the timestamp parser behind
    [pd.to_datetime]). *)

From Stdlib Require Import QArith ZArith Lia Lqa Ascii String Sorted.
From stdpp Require Import base option list strings.

Open Scope Q_scope.

(** ** Calendar values shared by both programs *)

(** [datetime.date]: compared field by field, year first. *)
Record date := mk_date { anio : Z; mes : Z; dia_mes : Z }.

(** [pd.Timestamp], down to the second. *)
Record datetime := mk_datetime {
  dt_fecha : date; dt_hora : Z; dt_minuto : Z; dt_segundo : Z }.

Definition es_bisiesto (a : Z) : bool :=
  ((a mod 4 =? 0) && negb (a mod 100 =? 0) || (a mod 400 =? 0))%Z.

Definition dias_del_mes (a m : Z) : Z :=
  if (m =? 2)%Z then (if es_bisiesto a then 29 else 28)%Z
  else if ((m =? 4) || (m =? 6) || (m =? 9) || (m =? 11))%Z then 30%Z
  else 31%Z.

Definition dia_siguiente (d : date) : date :=
  if (dia_mes d <? dias_del_mes (anio d) (mes d))%Z
  then mk_date (anio d) (mes d) (dia_mes d + 1)
  else if (mes d <? 12)%Z then mk_date (anio d) (mes d + 1) 1
  else mk_date (anio d + 1) 1 1.

Definition hora_siguiente (t : datetime) : datetime :=
  if (dt_hora t <? 23)%Z
  then mk_datetime (dt_fecha t) (dt_hora t + 1) (dt_minuto t) (dt_segundo t)
  else mk_datetime (dia_siguiente (dt_fecha t)) 0 (dt_minuto t) (dt_segundo t).

(** [pd.date_range(start, periods, freq='h')]. *)
Fixpoint pd_date_range_h (start : datetime) (periods : nat) : list datetime :=
  match periods with
  | O => []
  | S n => start :: pd_date_range_h (hora_siguiente start) n
  end.

(** ** The synthetic generator, [src/app_v1.py] *)

Module AppV1.

(** *** numpy arrays in a store

    A name of the Python function holds a reference to an array; an
    assignment [a = b] copies the reference, an arithmetic expression builds
    a new array, and [a[i] *= c] updates the array in place. *)

Definition ref := nat.

Record estado := mk_estado {
  heap : list (list Q);     (* the arrays allocated so far *)
  sorteos : nat → Q;        (* the standard normal draws still to come *)
}.

(** A computation either raises ([None]) or returns a value and a state. *)
Definition M (A : Type) : Type := estado → option (A * estado).

#[global] Instance M_ret : MRet M := λ A x s, Some (x, s).
#[global] Instance M_bind : MBind M := λ A B f m s,
  match m s with
  | Some (a, s') => f a s'
  | None => None
  end.

(** Raise an exception. *)
Definition lanzar {A} : M A := λ _, None.

(** Bind a freshly built array to a name. *)
Definition nuevo (v : list Q) : M ref := λ s,
  Some (length (heap s), mk_estado (heap s ++ [v]) (sorteos s)).

(** Read the array a name refers to. *)
Definition leer (r : ref) : M (list Q) := λ s,
  match heap s !! r with
  | Some v => Some (v, s)
  | None => None
  end.

(** [a[i] *= c]: in place; an index out of range raises [IndexError]. *)
Definition imul_item (r : ref) (i : nat) (c : Q) : M unit := λ s,
  match heap s !! r with
  | Some v =>
      match v !! i with
      | Some x => Some (tt, mk_estado (<[r := <[i := x * c]> v]> (heap s)) (sorteos s))
      | None => None
      end
  | None => None
  end.

(** [np.random.normal(loc, scale, size)]: consumes [size] draws. *)
Definition np_random_normal (loc scale : Q) (size : nat) : M (list Q) := λ s,
  Some (map (λ i, loc + scale * sorteos s i) (seq 0 size),
        mk_estado (heap s) (λ i, sorteos s (size + i)%nat)).

(** *** Element-wise numpy operations (on values) *)

Definition np_arange (a b : Z) : list Z :=
  map (λ i, a + Z.of_nat i)%Z (seq 0 (Z.to_nat (b - a))).

Definition np_maximum (a b : Q) : Q := if Qle_bool a b then b else a.

(** Two arrays combine only when their shapes agree ([ValueError]). *)
Definition np_add (xs ys : list Q) : option (list Q) :=
  if decide (length xs = length ys) then Some (zip_with Qplus xs ys) else None.

Definition elevar {A} (o : option A) : M A :=
  match o with Some a => mret a | None => lanzar end.

(** The double nearest to pi, which is what [np.pi] is. *)
Definition np_pi : Q := 884279719003555 # 281474976710656.

(** *** The long-format table *)

Record fila := mk_fila {
  Timestamp : datetime; Irradiancia : Q; Potencia : Q; Dia : string }.

Record fila_ancha := mk_fila_ancha {
  w_index : datetime;
  Potencia_Dia1 : Q; Irradiancia_Dia1 : Q;
  Potencia_Dia2 : Q; Irradiancia_Dia2 : Q;
  Potencia_Dia3 : Q; Irradiancia_Dia3 : Q }.

Fixpoint filas_anchas (ts : list datetime) (p1 i1 p2 i2 p3 i3 : list Q)
  : list fila_ancha :=
  match ts, p1, i1, p2, i2, p3, i3 with
  | t :: ts, a :: p1, b :: i1, c :: p2, d :: i2, e :: p3, f :: i3 =>
      mk_fila_ancha t a b c d e f :: filas_anchas ts p1 i1 p2 i2 p3 i3
  | _, _, _, _, _, _, _ => []
  end.

(** [pd.DataFrame(data={...}, index=...)]: the columns are copied out of
    the arrays; columns of different lengths raise [ValueError]. *)
Definition pd_DataFrame (ts : list datetime) (p1 i1 p2 i2 p3 i3 : ref)
  : M (list fila_ancha) :=
  vp1 ← leer p1; vi1 ← leer i1; vp2 ← leer p2; vi2 ← leer i2;
  vp3 ← leer p3; vi3 ← leer i3;
  if forallb (λ v, length v =? length ts)%nat [vp1; vi1; vp2; vi2; vp3; vi3]
  then mret (filas_anchas ts vp1 vi1 vp2 vi2 vp3 vi3)
  else lanzar.

Section Generador.

(** [np.sin] on floats, whatever it returns. *)
Variable np_sin : Q → Q.

Definition simular_datos_pv : M (list fila) :=
  let timestamps := pd_date_range_h (mk_datetime (mk_date 2025 7 1) 0 0 0) 72 in
  let horas_dia := np_arange 0 72 in
  let ciclo_solar_base :=
    map (λ h, np_sin (np_pi * inject_Z (h mod 24) / 24) ^ 2) horas_dia in
  ruido ← np_random_normal 0 5 72;
  suma ← elevar (np_add (map (λ c, c * 1000) ciclo_solar_base) ruido);
  irradiancia_base ← nuevo (map (np_maximum 0) suma);
  let irradiancia_dia1 := irradiancia_base in
  v ← leer irradiancia_dia1;
  potencia_dia1 ← nuevo (map (λ x, x * 0.15) v);
  v ← leer irradiancia_base;
  ruido ← np_random_normal 0 20 72;
  suma ← elevar (np_add (map (λ x, x * 0.4) v) ruido);
  irradiancia_dia2 ← nuevo (map (np_maximum 0) suma);
  v ← leer irradiancia_dia2;
  potencia_dia2 ← nuevo (map (λ x, x * 0.15) v);
  let irradiancia_dia3 := irradiancia_base in
  v ← leer irradiancia_dia3;
  potencia_dia3 ← nuevo (map (λ x, x * 0.15) v);
  imul_item potencia_dia3 (24 + 11) 0.3;;
  imul_item potencia_dia3 (24 + 14) 0.4;;
  df_reset ← pd_DataFrame timestamps
               potencia_dia1 irradiancia_dia1
               potencia_dia2 irradiancia_dia2
               potencia_dia3 irradiancia_dia3;
  let df_d1 := map (λ w, mk_fila (w_index w) (Irradiancia_Dia1 w)
                           (Potencia_Dia1 w) "Día 1 (Soleado)") df_reset in
  let df_d2 := map (λ w, mk_fila (w_index w) (Irradiancia_Dia2 w)
                           (Potencia_Dia2 w) "Día 2 (Nublado)") df_reset in
  let df_d3 := map (λ w, mk_fila (w_index w) (Irradiancia_Dia3 w)
                           (Potencia_Dia3 w) "Día 3 (Parcial)") df_reset in
  mret (df_d1 ++ df_d2 ++ df_d3).

(** [cargar_datos] only calls the generator (the cache is a decorator). *)
Definition cargar_datos : M (list fila) := simular_datos_pv.

(** A run starts with no array allocated. *)
Definition ejecutar (z : nat → Q) : option (list fila) :=
  fst <$> cargar_datos (mk_estado [] z).

(** *** The table in closed form

    What the run builds, row by row: the row of index [i] of each day.
    [ejecutar_forma_cerrada] below proves that the program returns
    exactly these rows. *)

Variable z : nat → Q.

Definition marca (i : nat) : datetime :=
  mk_datetime (mk_date 2025 7 (1 + Z.of_nat i / 24)) (Z.of_nat i mod 24) 0 0.

Definition irradiancia_base_en (i : nat) : Q :=
  np_maximum 0
    (np_sin (np_pi * inject_Z (Z.of_nat i mod 24) / 24) ^ 2 * 1000
     + (0 + 5 * z i)).

Definition irradiancia_dia2_en (i : nat) : Q :=
  np_maximum 0 (irradiancia_base_en i * 0.4 + (0 + 20 * z (72 + i)%nat)).

Definition potencia_dia3_en (i : nat) : Q :=
  if decide (i = 35%nat) then irradiancia_base_en i * 0.15 * 0.3
  else if decide (i = 38%nat) then irradiancia_base_en i * 0.15 * 0.4
  else irradiancia_base_en i * 0.15.

Definition fila_dia1 (i : nat) : fila :=
  mk_fila (marca i) (irradiancia_base_en i) (irradiancia_base_en i * 0.15)
          "Día 1 (Soleado)".
Definition fila_dia2 (i : nat) : fila :=
  mk_fila (marca i) (irradiancia_dia2_en i) (irradiancia_dia2_en i * 0.15)
          "Día 2 (Nublado)".
Definition fila_dia3 (i : nat) : fila :=
  mk_fila (marca i) (irradiancia_base_en i) (potencia_dia3_en i)
          "Día 3 (Parcial)".

End Generador.

(** The rows that carry a given day label. *)
Definition sub_tabla (etiqueta : string) (df : list fila) : list fila :=
  filter (λ r, Dia r = etiqueta) df.

(** The power rule of days 1 and 3, with the two dips of day 3 at the
    indices [a] and [b] of its sub-table: every row of day 1, and every row
    of day 3 but those two, has power = irradiance x 0.15; the row [a] of
    day 3 has that value x 0.3 and the row [b] that value x 0.4. *)
Definition recorte_en (a b : nat) (df : list fila) : Prop :=
  (∀ r, r ∈ sub_tabla "Día 1 (Soleado)" df →
        Potencia r == Irradiancia r * 0.15) ∧
  (∀ i r, sub_tabla "Día 3 (Parcial)" df !! i = Some r → i ≠ a → i ≠ b →
        Potencia r == Irradiancia r * 0.15) ∧
  (∃ r, sub_tabla "Día 3 (Parcial)" df !! a = Some r ∧
        Potencia r == Irradiancia r * 0.15 * 0.3) ∧
  (∃ r, sub_tabla "Día 3 (Parcial)" df !! b = Some r ∧
        Potencia r == Irradiancia r * 0.15 * 0.4).

(** The rule holds of the table a run returns. *)
Definition genera_con_recorte_en (a b : nat) (np_sin : Q → Q) (z : nat → Q)
  : Prop :=
  ∃ df, ejecutar np_sin z = Some df ∧ recorte_en a b df.

(** A rational stand-in for the sine on [0, pi] (Bhaskara's formula), to run
    the generator on concrete data; the theorems hold for every sine. *)
Definition seno_racional (x : Q) : Q :=
  16 * x * (np_pi - x) / (5 * np_pi * np_pi - 4 * x * (np_pi - x)).

End AppV1.

(** ** The filter and KPI pipeline, [src/streamlit_app.py] *)

Module StreamlitApp.

(** *** Tables *)

(** A row as [pd.read_csv] yields it: the timestamp is still text and any
    cell may be missing (NaN, here [None]), the name of the inverter
    included. *)
Record fila_csv := mk_fila_csv {
  csv_Timestamp : option string;
  csv_Nombre_Inversor : option string;
  csv_Potencia_AC_kW : option Q;
  csv_Irradiancia_GHI_W_m2 : option Q }.

(** A row of the cleaned table. *)
Record fila := mk_fila {
  Timestamp : datetime;
  Nombre_Inversor : option string;
  Potencia_AC_kW : option Q;
  Irradiancia_GHI_W_m2 : option Q;
  Fecha : date }.

(** [Timestamp.dt.date]. *)
Definition dt_date (t : datetime) : date := dt_fecha t.

(** [df.dropna(subset=["Timestamp"])] on rows paired with their coerced
    timestamp: a row whose timestamp is [NaT] goes, the others stay in
    order. *)
Fixpoint dropna {A} (df : list (option datetime * A)) : list (datetime * A) :=
  match df with
  | [] => []
  | (Some t, r) :: df => (t, r) :: dropna df
  | (None, _) :: df => dropna df
  end.

Section Carga.

(** What [pd.to_datetime] makes of the text of one cell: an instant, or
    nothing when the text is not a timestamp. *)
Variable to_datetime : string → option datetime.

(** [pd.to_datetime(col, errors="coerce")] on one cell: a missing cell and
    an unreadable one both become [NaT]. *)
Definition to_datetime_coerce (c : option string) : option datetime :=
  match c with
  | Some s => to_datetime s
  | None => None
  end.

Definition cargar_datos (csv : list fila_csv) : list fila :=
  let df := map (λ r, (to_datetime_coerce (csv_Timestamp r), r)) csv in
  let df := dropna df in
  map (λ '(t, r), mk_fila t (csv_Nombre_Inversor r) (csv_Potencia_AC_kW r)
                    (csv_Irradiancia_GHI_W_m2 r) (dt_date t)) df.

End Carga.

(** *** Filtering *)

(** [datetime.date.__le__]: the (year, month, day) triples in
    lexicographic order. *)
Definition date_leb (a b : date) : bool :=
  match (anio a ?= anio b)%Z with
  | Lt => true
  | Gt => false
  | Eq =>
      match (mes a ?= mes b)%Z with
      | Lt => true
      | Gt => false
      | Eq => (dia_mes a <=? dia_mes b)%Z
      end
  end.

(** [col.isin(valores)]: one boolean per row; a missing name is found
    among the values when a missing name is one of them. *)
Definition isin (col valores : list (option string)) : list bool :=
  map (λ x, bool_decide (x ∈ valores)) col.

(** [col >= d] and [col <= d]. *)
Definition col_ge (col : list date) (d : date) : list bool :=
  map (λ x, date_leb d x) col.
Definition col_le (col : list date) (d : date) : list bool :=
  map (λ x, date_leb x d) col.

(** [m1 & m2], element by element. *)
Definition mask_and (m1 m2 : list bool) : list bool := zip_with andb m1 m2.

(** [df[mask]]: the rows whose mask entry is [True], in order. *)
Fixpoint boolean_index {A} (df : list A) (mask : list bool) : list A :=
  match df, mask with
  | r :: df, b :: mask =>
      if b then r :: boolean_index df mask else boolean_index df mask
  | _, _ => []
  end.

Definition df_filtrado (df : list fila) (inversores_seleccionados : list (option string))
    (fecha_inicio fecha_fin : date) : list fila :=
  boolean_index df
    (mask_and
       (mask_and (isin (map Nombre_Inversor df) inversores_seleccionados)
                 (col_ge (map Fecha df) fecha_inicio))
       (col_le (map Fecha df) fecha_fin)).

(** *** KPIs *)

(** [Series.sum()]: missing cells are skipped, the empty sum is 0. *)
Definition pd_sum (col : list (option Q)) : Q :=
  fold_left (λ acc x, match x with Some v => acc + v | None => acc end) col 0.

(** [Series.max()]: missing cells are skipped; [None] (NaN) when no cell is
    left. *)
Definition pd_max (col : list (option Q)) : option Q :=
  fold_left (λ acc x,
    match acc, x with
    | Some m, Some v => Some (if Qle_bool m v then v else m)
    | None, Some v => Some v
    | _, None => acc
    end) col None.

(** Float division by an integer: no finite result ([None]) when the
    divisor is 0. *)
Definition dividir (a : Q) (b : Z) : option Q :=
  if (b =? 0)%Z then None else Some (a / inject_Z b).

Definition energia_total_kwh (df_filtrado : list fila) : Q :=
  pd_sum (map Potencia_AC_kW df_filtrado) * 0.25.

Definition potencia_pico_kw (df_filtrado : list fila) : option Q :=
  pd_max (map Potencia_AC_kW df_filtrado).

Definition irradiancia_max (df_filtrado : list fila) : option Q :=
  pd_max (map Irradiancia_GHI_W_m2 df_filtrado).

Definition potencia_pico_sistema_kwp (inversores_seleccionados : list (option string)) : Z :=
  50 * Z.of_nat (length inversores_seleccionados).

Definition hsp (energia_total_kwh : Q) (potencia_pico_sistema_kwp : Z)
  : option Q :=
  dividir energia_total_kwh potencia_pico_sistema_kwp.

(** *** The script

    What the script does is a trace: the calls that show something (a
    metric is recorded with the number it formats), the assignment of the
    filtered table and the assignments of the KPI section.  The two
    sidebar widgets return what the user chose; their values are arguments
    of the script. *)

Inductive evento :=
  | sidebar_header (texto : string)
  | sidebar_error (texto : string)
  | warning (texto : string)
  | title (texto : string)
  | markdown_rango (fecha_inicio fecha_fin : date)
  | header (texto : string)
  | asigna_tabla (nombre : string) (valor : list fila)
  | asigna (nombre : string) (valor : option Q)
  | metric (label : string) (valor : option Q).

(** A run of the script goes on with a value or has been stopped by
    [st.stop()]. *)
Inductive salida (A : Type) :=
  | sigue (a : A)
  | detenido.
Arguments sigue {A} a.
Arguments detenido {A}.

Definition St (A : Type) : Type := list evento → salida A * list evento.

#[global] Instance St_ret : MRet St := λ A x log, (sigue x, log).
#[global] Instance St_bind : MBind St := λ A B f m log,
  match m log with
  | (sigue a, log') => f a log'
  | (detenido, log') => (detenido, log')
  end.

Definition emite (e : evento) : St unit := λ log, (sigue tt, log ++ [e]).
Definition stop {A} : St A := λ log, (detenido, log).

Definition script (df : list fila) (inversores_seleccionados : list (option string))
    (fechas_seleccionadas : list date) : St unit :=
  emite (sidebar_header "Filtros del Dashboard ☀️");;
  (* try: fecha_inicio, fecha_fin = fechas_seleccionadas; except ValueError *)
  rango ← match fechas_seleccionadas with
          | [fecha_inicio; fecha_fin] => mret (fecha_inicio, fecha_fin)
          | _ => emite (sidebar_error
                   "Selecciona un rango de fechas válido (inicio y fin).");;
                 stop
          end;
  let '(fecha_inicio, fecha_fin) := rango in
  let filtrado :=
    df_filtrado df inversores_seleccionados fecha_inicio fecha_fin in
  emite (asigna_tabla "df_filtrado" filtrado);;
  match filtrado with
  | [] => emite (warning "No hay datos para los filtros seleccionados.");; stop
  | _ => mret tt
  end;;
  emite (title "Dashboard de Rendimiento Fotovoltaico ☀️");;
  emite (markdown_rango fecha_inicio fecha_fin);;
  emite (header "KPIs de Rendimiento");;
  let e := energia_total_kwh filtrado in
  emite (asigna "energia_total_kwh" (Some e));;
  let p := potencia_pico_kw filtrado in
  emite (asigna "potencia_pico_kw" p);;
  let i := irradiancia_max filtrado in
  emite (asigna "irradiancia_max" i);;
  let k := potencia_pico_sistema_kwp inversores_seleccionados in
  emite (asigna "potencia_pico_sistema_kwp" (Some (inject_Z k)));;
  let h := hsp e k in
  emite (asigna "hsp" h);;
  emite (metric "Energía Total Generada" (Some e));;
  emite (metric "Potencia AC Pico" p);;
  emite (metric "Irradiancia Máxima" i);;
  emite (metric "Horas Solares Pico (HSP)" h).

(** The whole program on the rows of [datos_pv.csv]; the trace starts
    empty.  The charts that follow the KPI row draw the filtered table and
    compute nothing that is reported. *)
Definition ejecutar (to_datetime : string → option datetime)
    (csv : list fila_csv) (inversores_seleccionados : list (option string))
    (fechas_seleccionadas : list date) : salida unit * list evento :=
  script (cargar_datos to_datetime csv) inversores_seleccionados
         fechas_seleccionadas [].

(** *** The sentences of the specification, for the statements below *)

(** A calendar date is not after another. *)
Definition fecha_le (a b : date) : Prop :=
  (anio a < anio b)%Z ∨
  (anio a = anio b ∧
   ((mes a < mes b)%Z ∨ (mes a = mes b ∧ (dia_mes a ≤ dia_mes b)%Z))).

#[global] Instance fecha_le_dec (a b : date) : Decision (fecha_le a b).
Proof. unfold fecha_le. apply _. Defined.

(** A row meets the filter criteria: its inverter is one of the selected
    ones and its date lies in [fecha_inicio, fecha_fin], ends included. *)
Definition cumple (inversores_seleccionados : list (option string))
    (fecha_inicio fecha_fin : date) (r : fila) : Prop :=
  Nombre_Inversor r ∈ inversores_seleccionados ∧
  fecha_le fecha_inicio (Fecha r) ∧ fecha_le (Fecha r) fecha_fin.

#[global] Instance cumple_dec sel a b r : Decision (cumple sel a b r).
Proof. unfold cumple. apply _. Defined.

(** The sum of the power values of the rows of a table. *)
Fixpoint suma_potencias (t : list fila) : Q :=
  match t with
  | [] => 0
  | r :: t => default 0 (Potencia_AC_kW r) + suma_potencias t
  end.

(** The timestamp of a CSV row parses: the cell holds a text and the
    parser reads an instant in it. *)
Definition se_lee (to_datetime : string → option datetime) (c : fila_csv)
  : Prop :=
  ∃ s t, csv_Timestamp c = Some s ∧ to_datetime s = Some t.

#[global] Instance se_lee_dec to_datetime c : Decision (se_lee to_datetime c).
Proof.
  unfold se_lee. destruct (csv_Timestamp c) as [s|].
  - destruct (to_datetime s) as [t|] eqn:E.
    + left. by exists s, t.
    + right. intros (s' & t & [= <-] & ?). congruence.
  - right. by intros (s' & t & ? & _).
Defined.

(** A cleaned row is a given CSV row: its timestamp is what the parser
    reads in the text of the cell, its date the date of that timestamp,
    and the other fields are the same. *)
Definition limpia_de (to_datetime : string → option datetime)
    (c : fila_csv) (r : fila) : Prop :=
  (∃ s, csv_Timestamp c = Some s ∧ to_datetime s = Some (Timestamp r)) ∧
  Nombre_Inversor r = csv_Nombre_Inversor c ∧
  Potencia_AC_kW r = csv_Potencia_AC_kW c ∧
  Irradiancia_GHI_W_m2 r = csv_Irradiancia_GHI_W_m2 c ∧
  Fecha r = mk_date (anio (dt_fecha (Timestamp r)))
                    (mes (dt_fecha (Timestamp r)))
                    (dia_mes (dt_fecha (Timestamp r))).

(** *** A parser to run examples

    A stand-in for [pd.to_datetime] on text of the form
    [YYYY-MM-DD HH:MM:SS]; the theorems hold for every parser. *)

Definition digito (c : ascii) : option Z :=
  let n := Z.of_nat (nat_of_ascii c) in
  if ((48 <=? n) && (n <=? 57))%Z then Some (n - 48)%Z else None.

Fixpoint entero (s : string) (acc : Z) : option Z :=
  match s with
  | EmptyString => Some acc
  | String c s => d ← digito c; entero s (10 * acc + d)%Z
  end.

Definition campo (s : string) (desde largo : nat) : option Z :=
  let t := String.substring desde largo s in
  if (String.length t =? largo)%nat then entero t 0 else None.

Definition separador (s : string) (i : nat) (c : ascii) : bool :=
  match String.get i s with
  | Some d => Ascii.eqb c d
  | None => false
  end.

Definition to_datetime_iso (s : string) : option datetime :=
  if (String.length s =? 19)%nat && separador s 4 "-" && separador s 7 "-"
     && separador s 10 " " && separador s 13 ":" && separador s 16 ":"
  then
    a ← campo s 0 4; m ← campo s 5 2; d ← campo s 8 2;
    h ← campo s 11 2; mi ← campo s 14 2; se ← campo s 17 2;
    if ((1 <=? m) && (m <=? 12) && (1 <=? d) && (d <=? dias_del_mes a m)
        && (h <? 24) && (mi <? 60) && (se <? 60))%Z
    then Some (mk_datetime (mk_date a m d) h mi se)
    else None
  else None.

(** A small CSV: two good rows around the bad one of the source comment. *)
Definition csv_ejemplo : list fila_csv :=
  [ mk_fila_csv (Some "2025-07-01 08:30:00") (Some "Inversor-A") (Some 10) (Some 400);
    mk_fila_csv (Some "2loc 08:45:00") (Some "Inversor-A") (Some 99) (Some 999);
    mk_fila_csv (Some "2025-07-02 08:45:00") (Some "Inversor-B") (Some 20) (Some 500) ].

(** *** The sidebar widgets: their options and defaults *)

(** [Series.unique()]: the distinct values in order of first appearance;
    [vistos] are the values met so far. *)
Fixpoint unique_desde {A} `{EqDecision A} (vistos col : list A) : list A :=
  match col with
  | [] => []
  | x :: col =>
      if bool_decide (x ∈ vistos) then unique_desde vistos col
      else x :: unique_desde (x :: vistos) col
  end.

Definition pd_unique {A} `{EqDecision A} (col : list A) : list A :=
  unique_desde [] col.

Definition lista_inversores (df : list fila) : list (option string) :=
  pd_unique (map Nombre_Inversor df).

(** [Series.min()] and [Series.max()] of a column of dates; NaN ([None])
    when the column is empty. *)
Definition pd_min_fecha (col : list date) : option date :=
  match col with
  | [] => None
  | d :: col => Some (fold_left (λ m x, if date_leb m x then m else x) col d)
  end.

Definition pd_max_fecha (col : list date) : option date :=
  match col with
  | [] => None
  | d :: col => Some (fold_left (λ m x, if date_leb x m then m else x) col d)
  end.

Definition min_fecha (df : list fila) : option date := pd_min_fecha (map Fecha df).
Definition max_fecha (df : list fila) : option date := pd_max_fecha (map Fecha df).

(** What the two widgets return when the user touches nothing: the
    multiselect its [default] (every inverter), the date input its [value]
    (the whole range).  There is no default range on a table without
    rows. *)
Definition inversores_por_defecto (df : list fila) : list (option string) :=
  lista_inversores df.

Definition fechas_por_defecto (df : list fila) : option (list date) :=
  a ← min_fecha df; b ← max_fecha df; Some [a; b].

(** *** The charts: the tables and series they draw *)

(** [col == inversor], cell by cell: a missing name (NaN) equals nothing,
    not even a missing name. *)
Definition col_eq (col : list (option string)) (inversor : option string)
  : list bool :=
  map (λ n, match n, inversor with
            | Some a, Some b => bool_decide (a = b)
            | _, _ => false
            end) col.

(** [df_filtrado[df_filtrado["Nombre_Inversor"] == inversor]]. *)
Definition df_inv (df_filtrado : list fila) (inversor : option string)
  : list fila :=
  boolean_index df_filtrado (col_eq (map Nombre_Inversor df_filtrado) inversor).

(** One [go.Scatter] of the time-series figure. *)
Record traza := mk_traza {
  tr_name : string; tr_x : list datetime; tr_y : list (option Q) }.

(** How an f-string prints a name: the text, or [nan] for a missing one. *)
Definition formato (inversor : option string) : string :=
  match inversor with
  | Some s => s
  | None => "nan"
  end.

(** The power traces: one per name of the filtered table, in the order of
    the loop. *)
Definition trazas_potencia (df_filtrado : list fila) : list traza :=
  map (λ inversor,
         let df_inv := df_inv df_filtrado inversor in
         mk_traza (String.append "Potencia ("
                     (String.append (formato inversor) ")"))
                  (map Timestamp df_inv) (map Potencia_AC_kW df_inv))
      (pd_unique (map Nombre_Inversor df_filtrado)).

#[global] Instance date_eq_dec : EqDecision date.
Proof. solve_decision. Defined.
#[global] Instance datetime_eq_dec : EqDecision datetime.
Proof. solve_decision. Defined.

(** The order of [pd.Timestamp]: date, then hour, minute and second. *)
Definition datetime_leb (a b : datetime) : bool :=
  if decide (dt_fecha a = dt_fecha b) then
    match (dt_hora a ?= dt_hora b)%Z with
    | Lt => true
    | Gt => false
    | Eq =>
        match (dt_minuto a ?= dt_minuto b)%Z with
        | Lt => true
        | Gt => false
        | Eq => (dt_segundo a <=? dt_segundo b)%Z
        end
    end
  else date_leb (dt_fecha a) (dt_fecha b).

(** The group keys of a [groupby] come sorted. *)
Fixpoint insertar (t : datetime) (l : list datetime) : list datetime :=
  match l with
  | [] => [t]
  | x :: l' => if datetime_leb t x then t :: l else x :: insertar t l'
  end.

Definition ordenar (l : list datetime) : list datetime := foldr insertar [] l.

(** [Series.mean()]: the mean of the cells that are not missing; NaN
    ([None]) when none is left. *)
Definition pd_mean (col : list (option Q)) : option Q :=
  let presentes := omap id col in
  match presentes with
  | [] => None
  | _ => Some (foldr Qplus 0 presentes / inject_Z (Z.of_nat (length presentes)))
  end.

(** [df_filtrado.groupby("Timestamp")["Irradiancia_GHI_W_m2"].mean()
    .reset_index()]: one row per timestamp, in increasing order. *)
Definition df_irradiancia (df_filtrado : list fila)
  : list (datetime * option Q) :=
  map (λ t, (t, pd_mean (map Irradiancia_GHI_W_m2
                           (filter (λ r, Timestamp r = t) df_filtrado))))
      (ordenar (pd_unique (map Timestamp df_filtrado))).

(** [col > c]: a missing cell compares false. *)
Definition col_gt (col : list (option Q)) (c : Q) : list bool :=
  map (λ x, match x with
            | Some v => negb (Qle_bool v c)
            | None => false
            end) col.

(** [df_filtrado[df_filtrado["Irradiancia_GHI_W_m2"] > 50]]. *)
Definition df_diurno (df_filtrado : list fila) : list fila :=
  boolean_index df_filtrado (col_gt (map Irradiancia_GHI_W_m2 df_filtrado) 50).

(** *** More sentences, for the statements about widgets and charts *)

(** A row is a daytime row: it has an irradiance, above 50 W/m2. *)
Definition es_diurna (r : fila) : Prop :=
  match Irradiancia_GHI_W_m2 r with
  | Some v => 50 < v
  | None => False
  end.

#[global] Instance es_diurna_dec (r : fila) : Decision (es_diurna r).
Proof.
  unfold es_diurna. destruct (Irradiancia_GHI_W_m2 r) as [v|].
  - destruct (Qlt_le_dec 50 v) as [H|H]; [by left|right].
    by apply Qle_not_lt.
  - right. tauto.
Defined.

(** An instant is not after another: its date is earlier, or the dates
    are the same and its time of day is not later. *)
Definition datetime_le (a b : datetime) : Prop :=
  (fecha_le (dt_fecha a) (dt_fecha b) ∧ ¬ fecha_le (dt_fecha b) (dt_fecha a)) ∨
  (fecha_le (dt_fecha a) (dt_fecha b) ∧ fecha_le (dt_fecha b) (dt_fecha a) ∧
   ((dt_hora a < dt_hora b)%Z ∨
    (dt_hora a = dt_hora b ∧
     ((dt_minuto a < dt_minuto b)%Z ∨
      (dt_minuto a = dt_minuto b ∧ (dt_segundo a ≤ dt_segundo b)%Z))))).

(** A row has an inverter name. *)
Definition con_nombre (r : fila) : Prop := is_Some (Nombre_Inversor r).

(** A row is a row of the inverter of a given name. *)
Definition es_de (k : option string) (r : fila) : Prop :=
  ∃ s, k = Some s ∧ Nombre_Inversor r = Some s.

#[global] Instance es_de_dec k r : Decision (es_de k r).
Proof.
  unfold es_de. destruct k as [s|].
  - destruct (decide (Nombre_Inversor r = Some s)) as [H|H].
    + left. by exists s.
    + right. intros (s' & [= <-] & ?). done.
  - right. by intros (s' & ? & _).
Defined.

(** The point a row puts on its trace. *)
Definition punto (r : fila) : datetime * option Q :=
  (Timestamp r, Potencia_AC_kW r).


(** A CSV with two inverters sampled at the same instants, out of order,
    with one missing power value. *)
Definition csv_dos_inversores : list fila_csv :=
  [ mk_fila_csv (Some "2025-07-01 12:15:00") (Some "Inversor-B") (Some 28) (Some 820);
    mk_fila_csv (Some "2025-07-01 12:00:00") (Some "Inversor-A") (Some 30) (Some 800);
    mk_fila_csv (Some "2025-07-01 12:00:00") (Some "Inversor-B") None (Some 800);
    mk_fila_csv (Some "2025-07-01 12:15:00") (Some "Inversor-A") (Some 32) (Some 840);
    mk_fila_csv (Some "2025-07-01 21:00:00") (Some "Inversor-A") (Some 0) (Some 3);
    mk_fila_csv (Some "2025-07-01 21:15:00") None (Some 1) None ].

End StreamlitApp.

(** * Properties *)

(** ** The generator *)

Section Generador_correcto.
Import AppV1.

Lemma np_maximum_cota (a b : Q) : a <= np_maximum a b.
Proof.
  unfold np_maximum. destruct (Qle_bool a b) eqn:E.
  - by apply Qle_bool_iff.
  - apply Qle_refl.
Qed.

Lemma lookup_map_seq {A} (f : nat → A) (n i : nat) (x : A) :
  map f (seq 0 n) !! i = Some x ↔ (i < n)%nat ∧ x = f i.
Proof.
  change (map f (seq 0 n)) with (f <$> seq 0 n).
  rewrite list_lookup_fmap. split.
  - destruct (seq 0 n !! i) as [j|] eqn:E; simpl; [|done].
    apply lookup_seq in E as [-> ?]. intros [= <-]. done.
  - intros [Hi ->]. by rewrite lookup_seq_lt.
Qed.

Variable np_sin : Q → Q.
Variable z : nat → Q.

Local Abbreviation d1 := (map (fila_dia1 np_sin z) (seq 0 72)).
Local Abbreviation d2 := (map (fila_dia2 np_sin z) (seq 0 72)).
Local Abbreviation d3 := (map (fila_dia3 np_sin z) (seq 0 72)).

(** Running the program, arrays in the store and all, yields the rows of
    the closed form: 72 of day 1, then 72 of day 2, then 72 of day 3. *)
Lemma ejecutar_forma_cerrada : ejecutar np_sin z = Some (d1 ++ d2 ++ d3).
Proof.
  cbv -[Qmult Qplus Qdiv Qpower np_maximum inject_Z np_pi].
  reflexivity.
Qed.

Lemma sub_tabla_etiqueta {A} (f : A → fila) (e : string) (l : list A) :
  (∀ x, Dia (f x) = e) → sub_tabla e (map f l) = map f l.
Proof.
  intros H. unfold sub_tabla. induction l as [|x l IH]; [done|].
  simpl. rewrite filter_cons_True by apply H. by rewrite IH.
Qed.

Lemma sub_tabla_otra {A} (f : A → fila) (e : string) (l : list A) :
  (∀ x, Dia (f x) ≠ e) → sub_tabla e (map f l) = [].
Proof.
  intros H. unfold sub_tabla. induction l as [|x l IH]; [done|].
  simpl. rewrite filter_cons_False by apply H. done.
Qed.

Lemma sub_tabla_app (e : string) (l1 l2 : list fila) :
  sub_tabla e (l1 ++ l2) = sub_tabla e l1 ++ sub_tabla e l2.
Proof. apply filter_app. Qed.

Local Ltac etiquetas :=
  intros; cbv [fila_dia1 fila_dia2 fila_dia3 Dia]; congruence.

Lemma sub_tabla_dia1 : sub_tabla "Día 1 (Soleado)" (d1 ++ d2 ++ d3) = d1.
Proof.
  rewrite !sub_tabla_app.
  rewrite (sub_tabla_etiqueta (fila_dia1 np_sin z)) by etiquetas.
  rewrite (sub_tabla_otra (fila_dia2 np_sin z)) by etiquetas.
  rewrite (sub_tabla_otra (fila_dia3 np_sin z)) by etiquetas.
  by rewrite !app_nil_r.
Qed.

Lemma sub_tabla_dia2 : sub_tabla "Día 2 (Nublado)" (d1 ++ d2 ++ d3) = d2.
Proof.
  rewrite !sub_tabla_app.
  rewrite (sub_tabla_otra (fila_dia1 np_sin z)) by etiquetas.
  rewrite (sub_tabla_etiqueta (fila_dia2 np_sin z)) by etiquetas.
  rewrite (sub_tabla_otra (fila_dia3 np_sin z)) by etiquetas.
  by rewrite app_nil_r.
Qed.

Lemma sub_tabla_dia3 : sub_tabla "Día 3 (Parcial)" (d1 ++ d2 ++ d3) = d3.
Proof.
  rewrite !sub_tabla_app.
  rewrite (sub_tabla_otra (fila_dia1 np_sin z)) by etiquetas.
  rewrite (sub_tabla_otra (fila_dia2 np_sin z)) by etiquetas.
  by rewrite (sub_tabla_etiqueta (fila_dia3 np_sin z)) by etiquetas.
Qed.

Lemma marcas_por_hora {A} (f : nat → A) (g : A → datetime) :
  (∀ i, g (f i) = marca i) →
  map g (map f (seq 0 72)) =
  pd_date_range_h (mk_datetime (mk_date 2025 7 1) 0 0 0) 72.
Proof.
  intros H. rewrite map_map. erewrite map_ext by (intros; apply H).
  reflexivity.
Qed.

(** C1.  Whatever the draws (and whatever the sine returns), the
    generator returns a table; it has 216 rows, made of the 72 rows
    labelled day 1, then the 72 labelled day 2, then the 72 labelled day 3;
    the rows of each label are the 72 hourly instants from 2025-07-01
    00:00, the row of index i bearing day 1 + i/24 of July 2025 at hour
    i mod 24, minute and second 0; and the irradiance of every row is at
    least 0. *)
Theorem generador_216_filas_irradiancia_no_negativa :
  ∃ df, ejecutar np_sin z = Some df ∧
    length df = 216%nat ∧
    df = sub_tabla "Día 1 (Soleado)" df ++ sub_tabla "Día 2 (Nublado)" df
         ++ sub_tabla "Día 3 (Parcial)" df ∧
    Forall (λ e, length (sub_tabla e df) = 72%nat ∧
                 map Timestamp (sub_tabla e df) =
                 pd_date_range_h (mk_datetime (mk_date 2025 7 1) 0 0 0) 72 ∧
                 ∀ i r, sub_tabla e df !! i = Some r →
                   Timestamp r =
                   mk_datetime (mk_date 2025 7 (1 + Z.of_nat i / 24))
                               (Z.of_nat i mod 24) 0 0)
           ["Día 1 (Soleado)"; "Día 2 (Nublado)"; "Día 3 (Parcial)"] ∧
    Forall (λ r, 0 <= Irradiancia r) df.
Proof.
  exists (d1 ++ d2 ++ d3). split; [apply ejecutar_forma_cerrada|].
  rewrite sub_tabla_dia1, sub_tabla_dia2, sub_tabla_dia3.
  split; [by rewrite !length_app, !length_map, !length_seq|].
  split; [done|]. split.
  - repeat apply Forall_cons_2; [| | |apply Forall_nil_2].
    + rewrite sub_tabla_dia1.
      split; [by rewrite length_map, length_seq|].
      split; [by rewrite marcas_por_hora|].
      by intros i r [_ ->]%lookup_map_seq.
    + rewrite sub_tabla_dia2.
      split; [by rewrite length_map, length_seq|].
      split; [by rewrite marcas_por_hora|].
      by intros i r [_ ->]%lookup_map_seq.
    + rewrite sub_tabla_dia3.
      split; [by rewrite length_map, length_seq|].
      split; [by rewrite marcas_por_hora|].
      by intros i r [_ ->]%lookup_map_seq.
  - rewrite !Forall_app, !Forall_fmap.
    repeat split; apply Forall_forall; intros i _; apply np_maximum_cota.
Qed.

(** C2, amended.  For every run: every row of day 1 has power =
    irradiance x 0.15; so has every row of day 3 except the rows of index
    35 and 38 of its 72 (that is 24+11 and 24+14: 11:00 and 14:00 of the
    second calendar day, 2025-07-02), whose power is irradiance x 0.15
    times 0.3 and times 0.4; and the irradiance column of day 3 is that of
    day 1, dips included. *)
Theorem recorte_en_indices_35_y_38 :
  ∃ df, ejecutar np_sin z = Some df ∧
    recorte_en 35 38 df ∧
    Timestamp <$> sub_tabla "Día 3 (Parcial)" df !! 35%nat =
      Some (mk_datetime (mk_date 2025 7 2) 11 0 0) ∧
    Timestamp <$> sub_tabla "Día 3 (Parcial)" df !! 38%nat =
      Some (mk_datetime (mk_date 2025 7 2) 14 0 0) ∧
    map Irradiancia (sub_tabla "Día 3 (Parcial)" df) =
      map Irradiancia (sub_tabla "Día 1 (Soleado)" df).
Proof.
  exists (d1 ++ d2 ++ d3). split; [apply ejecutar_forma_cerrada|].
  unfold recorte_en. rewrite sub_tabla_dia1, sub_tabla_dia3.
  split; [split; [|split; [|split]]|split; [|split]].
  - intros r [i [-> _]]%list_elem_of_fmap. reflexivity.
  - intros i r [_ ->]%lookup_map_seq H35 H38. cbn.
    unfold potencia_dia3_en. by rewrite !decide_False.
  - exists (fila_dia3 np_sin z 35). split; [|reflexivity].
    apply lookup_map_seq. split; [lia|done].
  - exists (fila_dia3 np_sin z 38). split; [|reflexivity].
    apply lookup_map_seq. split; [lia|done].
  - reflexivity.
  - reflexivity.
  - rewrite !map_map. reflexivity.
Qed.

End Generador_correcto.

Section Generador_ejemplos.
Import AppV1.

(** With the stand-in sine and every draw 0, the row of index 11 of day 3
    is the sample of 2025-07-01 11:00 and obeys the plain rule, power =
    irradiance x 0.15: it is not dipped. *)
Example fila_11_del_dia_3 :
  ∃ df r, ejecutar seno_racional (λ _, 0) = Some df ∧
    sub_tabla "Día 3 (Parcial)" df !! 11%nat = Some r ∧
    Timestamp r = mk_datetime (mk_date 2025 7 1) 11 0 0 ∧
    0 < Irradiancia r ∧
    Potencia r == Irradiancia r * 0.15.
Proof.
  eexists _, (fila_dia3 seno_racional (λ _, 0) 11).
  split; [apply ejecutar_forma_cerrada|]. rewrite sub_tabla_dia3.
  split; [by apply lookup_map_seq; split; [lia|]|].
  split; [reflexivity|]. split; [by vm_compute|reflexivity].
Qed.

(** C2 as stated fails: with the stand-in sine and every draw 0, the row of
    index 11 of day 3 does not have its power multiplied by 0.3. *)
Lemma recorte_en_indices_11_y_14_falla :
  ¬ genera_con_recorte_en 11 14 seno_racional (λ _, 0).
Proof.
  intros (df & Hdf & _ & _ & (r & Hr & Hp) & _).
  rewrite ejecutar_forma_cerrada in Hdf. apply (inj Some) in Hdf. subst df.
  rewrite sub_tabla_dia3 in Hr. apply lookup_map_seq in Hr as [_ ->].
  vm_compute in Hp. discriminate Hp.
Qed.

End Generador_ejemplos.

(** ** The pipeline *)

Section Pipeline_correcto.
Import StreamlitApp.

(** *** Cleaning *)

Section Limpieza.
Variable to_datetime : string → option datetime.

Lemma cargar_datos_cons (c : fila_csv) (csv : list fila_csv) :
  cargar_datos to_datetime (c :: csv) =
  match to_datetime_coerce to_datetime (csv_Timestamp c) with
  | Some t =>
      mk_fila t (csv_Nombre_Inversor c) (csv_Potencia_AC_kW c)
              (csv_Irradiancia_GHI_W_m2 c) (dt_date t)
      :: cargar_datos to_datetime csv
  | None => cargar_datos to_datetime csv
  end.
Proof.
  unfold cargar_datos. cbn [map dropna].
  by destruct (to_datetime_coerce to_datetime (csv_Timestamp c)).
Qed.

Lemma se_lee_coerce (c : fila_csv) (t : datetime) :
  to_datetime_coerce to_datetime (csv_Timestamp c) = Some t ↔
  ∃ s, csv_Timestamp c = Some s ∧ to_datetime s = Some t.
Proof.
  unfold to_datetime_coerce. destruct (csv_Timestamp c) as [s|]; split.
  - intros H. by exists s.
  - by intros (s' & [= <-] & H).
  - done.
  - by intros (s' & ? & _).
Qed.

(** C7.  The rows of the input split into those whose timestamp parses (N
    of them: the cell holds a text the parser reads) and those whose
    timestamp does not (M of them); the cleaned table has N rows, and they
    are the N parsable rows, one for one and in order: each carries the
    instant the parser reads in its own cell, the date of that instant,
    and the other fields of its own CSV row.  No row comes from anywhere
    else. *)
Theorem limpieza_deja_las_filas_validas (csv : list fila_csv) :
  let validas := filter (se_lee to_datetime) csv in
  let malas := filter (λ c, ¬ se_lee to_datetime c) csv in
  length csv = (length validas + length malas)%nat ∧
  length (cargar_datos to_datetime csv) = length validas ∧
  Forall2 (limpia_de to_datetime) validas (cargar_datos to_datetime csv).
Proof.
  cbn zeta. induction csv as [|c csv (IH1 & IH2 & IH3)]; [by repeat split|].
  rewrite cargar_datos_cons, !filter_cons.
  destruct (decide (se_lee to_datetime c)) as [(s & t & Hs & Ht)|H].
  - rewrite decide_False by (intros H; apply H; by exists s, t).
    assert (to_datetime_coerce to_datetime (csv_Timestamp c) = Some t) as E
      by (apply se_lee_coerce; by exists s).
    rewrite E. cbn [length]. repeat split; [lia|lia|].
    constructor; [|done]. split; [by exists s|]. repeat split.
    by destruct t as [[] ? ? ?].
  - rewrite decide_True by done.
    assert (to_datetime_coerce to_datetime (csv_Timestamp c) = None) as E.
    { destruct (to_datetime_coerce _ _) as [t|] eqn:E; [|done].
      exfalso. apply H. apply se_lee_coerce in E as (s & ? & ?).
      by exists s, t. }
    rewrite E. cbn [length]. repeat split; [lia|lia|done].
Qed.

End Limpieza.

(** *** Filtering *)

Lemma date_leb_fecha_le (a b : date) : date_leb a b = true ↔ fecha_le a b.
Proof.
  unfold date_leb, fecha_le.
  destruct (Z.compare_spec (anio a) (anio b));
    destruct (Z.compare_spec (mes a) (mes b));
    rewrite ?Z.leb_le; split; intros; try done; lia.
Qed.

Lemma df_filtrado_cons (r : fila) (df : list fila) sel a b :
  df_filtrado (r :: df) sel a b =
  if bool_decide (Nombre_Inversor r ∈ sel) && date_leb a (Fecha r)
     && date_leb (Fecha r) b
  then r :: df_filtrado df sel a b else df_filtrado df sel a b.
Proof. reflexivity. Qed.

Lemma mascara_cumple (r : fila) sel a b :
  bool_decide (Nombre_Inversor r ∈ sel) && date_leb a (Fecha r)
    && date_leb (Fecha r) b = true ↔ cumple sel a b r.
Proof.
  unfold cumple.
  rewrite !andb_true_iff, bool_decide_eq_true, !date_leb_fecha_le. tauto.
Qed.

(** The three masks and the boolean indexing select what the criteria
    say. *)
Lemma df_filtrado_filter (df : list fila) sel a b :
  df_filtrado df sel a b = filter (cumple sel a b) df.
Proof.
  induction df as [|r df IH]; [done|].
  rewrite df_filtrado_cons, filter_cons, IH.
  destruct (decide (cumple sel a b r)) as [H|H].
  - apply mascara_cumple in H. by rewrite H.
  - destruct (_ && _ && _) eqn:E; [|done]. by apply mascara_cumple in E.
Qed.

(** C5.  The filtered table is the cleaned table restricted to the rows
    that meet the criteria: a row is in it exactly when it is a row of the
    cleaned table whose inverter is selected and whose date lies between
    the two dates, ends included; the rows kept are rows of the input, in
    their order and as many times as they occur there. *)
Theorem filtrado_exacto (df : list fila) (sel : list (option string)) (a b : date) :
  df_filtrado df sel a b = filter (cumple sel a b) df ∧
  (∀ r, r ∈ df_filtrado df sel a b ↔
        r ∈ df ∧ Nombre_Inversor r ∈ sel ∧
        fecha_le a (Fecha r) ∧ fecha_le (Fecha r) b) ∧
  df_filtrado df sel a b `sublist_of` df.
Proof.
  rewrite df_filtrado_filter. split; [done|]. split.
  - intros r. rewrite list_elem_of_filter. unfold cumple. tauto.
  - apply sublist_filter.
Qed.

(** C6.  Filtering the filtered table again with the same criteria
    changes nothing. *)
Theorem filtrado_idempotente (df : list fila) (sel : list (option string)) (a b : date) :
  df_filtrado (df_filtrado df sel a b) sel a b = df_filtrado df sel a b.
Proof.
  rewrite !df_filtrado_filter. by apply list_filter_filter_r.
Qed.

(** A row can be kept only if some inverter is selected. *)
Lemma filtrado_no_vacio_seleccion (df : list fila) sel a b :
  df_filtrado df sel a b ≠ [] → sel ≠ [].
Proof.
  rewrite df_filtrado_filter. intros H ->. apply H. clear H.
  induction df as [|r df IH]; [done|].
  rewrite filter_cons_False; [done|]. unfold cumple. by intros [?%elem_of_nil _].
Qed.

(** *** KPIs *)

Lemma pd_sum_desde (col : list (option Q)) (acc : Q) :
  fold_left (λ acc x, match x with Some v => acc + v | None => acc end) col acc
  == acc + pd_sum col.
Proof.
  unfold pd_sum. revert acc. induction col as [|x col IH]; intros acc; cbn.
  - ring.
  - rewrite IH, (IH (match x with Some v => 0 + v | None => 0 end)).
    destruct x; ring.
Qed.

Lemma pd_sum_suma_potencias (t : list fila) :
  pd_sum (map Potencia_AC_kW t) == suma_potencias t.
Proof.
  induction t as [|r t IH]; [reflexivity|].
  unfold pd_sum. cbn [map fold_left suma_potencias].
  rewrite pd_sum_desde, IH. destruct (Potencia_AC_kW r); cbn; ring.
Qed.

(** C3.  The total energy of a table is the sum of the power values of its
    rows (a missing value adds nothing) times 0.25; for a table of two
    rows of power 10 and 20 it is (10+20) x 0.25 = 7.5. *)
Theorem energia_total_es_suma_por_intervalo :
  (∀ t : list fila, energia_total_kwh t == suma_potencias t * 0.25) ∧
  (∀ t1 n1 i1 f1 t2 n2 i2 f2,
     energia_total_kwh [mk_fila t1 n1 (Some 10) i1 f1;
                        mk_fila t2 n2 (Some 20) i2 f2] == (10 + 20) * 0.25) ∧
  (10 + 20) * 0.25 == 7.5.
Proof.
  split; [|split].
  - intros t. unfold energia_total_kwh. by rewrite pd_sum_suma_potencias.
  - reflexivity.
  - reflexivity.
Qed.

Lemma capacidad_positiva (sel : list (option string)) :
  sel ≠ [] → (50 ≤ potencia_pico_sistema_kwp sel)%Z.
Proof.
  unfold potencia_pico_sistema_kwp. destruct sel; [done|]. cbn [length]. lia.
Qed.

Lemma hsp_definido (e : Q) (sel : list (option string)) :
  sel ≠ [] →
  hsp e (potencia_pico_sistema_kwp sel) =
  Some (e / inject_Z (potencia_pico_sistema_kwp sel)).
Proof.
  intros H%capacidad_positiva. unfold hsp, dividir.
  destruct (Z.eqb_spec (potencia_pico_sistema_kwp sel) 0); [lia|done].
Qed.

(** C4.  With at least one inverter selected, the peak sun hours of a
    table are its total energy divided by 50 times the number of selected
    inverters; and for one same total energy, two selected inverters give
    half the value that one gives. *)
Theorem hsp_es_energia_entre_capacidad :
  (∀ (t : list fila) (sel : list (option string)), sel ≠ [] →
     ∃ h, hsp (energia_total_kwh t) (potencia_pico_sistema_kwp sel) = Some h ∧
          h == energia_total_kwh t / (50 * inject_Z (Z.of_nat (length sel)))) ∧
  (∀ (e : Q) (s1 s2 : list (option string)),
     length s1 = 1%nat → length s2 = 2%nat →
     ∃ h1 h2, hsp e (potencia_pico_sistema_kwp s1) = Some h1 ∧
              hsp e (potencia_pico_sistema_kwp s2) = Some h2 ∧
              h2 == h1 / 2).
Proof.
  split.
  - intros t sel H. eexists. split; [by apply hsp_definido|].
    unfold potencia_pico_sistema_kwp. by rewrite inject_Z_mult.
  - intros e s1 s2 H1 H2.
    do 2 eexists. split; [|split].
    + apply hsp_definido. by destruct s1.
    + apply hsp_definido. by destruct s2.
    + unfold potencia_pico_sistema_kwp. rewrite H1, H2.
      change (inject_Z (50 * Z.of_nat 2)) with 100.
      change (inject_Z (50 * Z.of_nat 1)) with 50.
      field.
Qed.

(** *** The script *)

Local Ltac ejecuta_script :=
  cbv -[df_filtrado energia_total_kwh potencia_pico_kw irradiancia_max
        potencia_pico_sistema_kwp hsp inject_Z].

(** No event of an explicit trace is the one looked for. *)
Local Ltac no_esta H :=
  repeat (apply elem_of_cons in H as [H|H]; [done|]);
  by apply elem_of_nil in H.

(** What the script does when the filtered table has a row. *)
Lemma script_con_datos (df : list fila) (sel : list (option string)) (a b : date) :
  let filtrado := df_filtrado df sel a b in
  let e := energia_total_kwh filtrado in
  let k := potencia_pico_sistema_kwp sel in
  filtrado ≠ [] →
  script df sel [a; b] [] =
  (sigue tt,
   [ sidebar_header "Filtros del Dashboard ☀️";
     asigna_tabla "df_filtrado" filtrado;
     title "Dashboard de Rendimiento Fotovoltaico ☀️";
     markdown_rango a b;
     header "KPIs de Rendimiento";
     asigna "energia_total_kwh" (Some e);
     asigna "potencia_pico_kw" (potencia_pico_kw filtrado);
     asigna "irradiancia_max" (irradiancia_max filtrado);
     asigna "potencia_pico_sistema_kwp" (Some (inject_Z k));
     asigna "hsp" (hsp e k);
     metric "Energía Total Generada" (Some e);
     metric "Potencia AC Pico" (potencia_pico_kw filtrado);
     metric "Irradiancia Máxima" (irradiancia_max filtrado);
     metric "Horas Solares Pico (HSP)" (hsp e k) ]).
Proof.
  cbn zeta. intros H. ejecuta_script.
  by destruct (df_filtrado df sel a b) as [|r t].
Qed.

(** What the script does when the filtered table is empty. *)
Lemma script_sin_datos (df : list fila) (sel : list (option string)) (a b : date) :
  df_filtrado df sel a b = [] →
  script df sel [a; b] [] =
  (detenido,
   [ sidebar_header "Filtros del Dashboard ☀️";
     asigna_tabla "df_filtrado" [];
     warning "No hay datos para los filtros seleccionados." ]).
Proof. intros E. ejecuta_script. by rewrite E. Qed.

(** What the script does when the date widget did not return two dates. *)
Lemma script_rango_invalido (df : list fila) (sel : list (option string))
    (fechas : list date) :
  length fechas ≠ 2%nat →
  script df sel fechas [] =
  (detenido,
   [ sidebar_header "Filtros del Dashboard ☀️";
     sidebar_error "Selecciona un rango de fechas válido (inicio y fin)." ]).
Proof. intros H. by destruct fechas as [|a [|b [|c l]]]. Qed.

(** C8.  When no row meets the criteria the script shows the warning and
    stops: the trace is the sidebar header, the (empty) filtered table and
    the warning, so none of the KPI assignments (the sum, the two maxima,
    the division) has run and no metric is shown. *)
Theorem sin_datos_detiene_antes_de_los_kpi
    (df : list fila) (sel : list (option string)) (a b : date) :
  df_filtrado df sel a b = [] →
  script df sel [a; b] [] =
    (detenido,
     [ sidebar_header "Filtros del Dashboard ☀️";
       asigna_tabla "df_filtrado" [];
       warning "No hay datos para los filtros seleccionados." ]) ∧
  ∀ nombre valor,
    (asigna nombre valor ∉ (script df sel [a; b] []).2) ∧
    (metric nombre valor ∉ (script df sel [a; b] []).2).
Proof.
  intros E. rewrite (script_sin_datos _ _ _ _ E). split; [done|].
  intros nombre valor. cbn [snd]. split; intros H; no_esta H.
Qed.

(** C9.  When the selection is not exactly a start date and an end date,
    the script shows the error in the sidebar and stops: the trace is the
    sidebar header and the error, so the filtered table has not been
    computed, no KPI assignment has run, and neither a metric nor the
    no-data warning is shown. *)
Theorem rango_invalido_detiene_antes_de_filtrar
    (df : list fila) (sel : list (option string)) (fechas : list date) :
  length fechas ≠ 2%nat →
  script df sel fechas [] =
    (detenido,
     [ sidebar_header "Filtros del Dashboard ☀️";
       sidebar_error "Selecciona un rango de fechas válido (inicio y fin)." ]) ∧
  ∀ nombre tabla valor,
    (asigna_tabla nombre tabla ∉ (script df sel fechas []).2) ∧
    (asigna nombre valor ∉ (script df sel fechas []).2) ∧
    (metric nombre valor ∉ (script df sel fechas []).2) ∧
    (warning nombre ∉ (script df sel fechas []).2).
Proof.
  intros H. rewrite (script_rango_invalido _ _ _ H). split; [done|].
  intros nombre tabla valor. cbn [snd].
  repeat split; intros He; no_esta He.
Qed.

(** C10.  Whenever a run reaches the division of the peak sun hours, the
    selection of dates was a pair and the filtered table has a row; so the
    table has a row whose inverter is selected, the selection is not
    empty, the divisor 50 x (number selected) is at least 50, and the
    division has a value. *)
Theorem division_hsp_nunca_por_cero
    (df : list fila) (sel : list (option string)) (fechas : list date) (v : option Q) :
  asigna "hsp" v ∈ (script df sel fechas []).2 →
  ∃ a b, fechas = [a; b] ∧
    df_filtrado df sel a b ≠ [] ∧
    (∃ r, r ∈ df ∧ Nombre_Inversor r ∈ sel) ∧
    sel ≠ [] ∧
    (50 ≤ potencia_pico_sistema_kwp sel)%Z ∧
    v = Some (energia_total_kwh (df_filtrado df sel a b)
              / inject_Z (potencia_pico_sistema_kwp sel)).
Proof.
  intros H.
  destruct (decide (length fechas = 2%nat)) as [L|L].
  - destruct fechas as [|a [|b [|c l]]]; try done. exists a, b.
    destruct (decide (df_filtrado df sel a b = [])) as [E|E].
    + rewrite (script_sin_datos _ _ _ _ E) in H. cbn [snd] in H. no_esta H.
    + pose proof (filtrado_no_vacio_seleccion _ _ _ _ E) as Hsel.
      rewrite (script_con_datos _ _ _ _ E) in H. cbn [snd] in H.
      repeat (apply elem_of_cons in H as [H|H]; [try done|]);
        [|by apply elem_of_nil in H].
      injection H as ->.
      split; [done|]. split; [done|]. split; [|split; [done|split]].
      * destruct (df_filtrado df sel a b) as [|r t] eqn:Er; [done|].
        exists r.
        assert (r ∈ df_filtrado df sel a b) as Hr by (rewrite Er; left).
        rewrite df_filtrado_filter in Hr.
        apply list_elem_of_filter in Hr as [[Hn _] Hdf]. done.
      * by apply capacidad_positiva.
      * by apply hsp_definido.
  - rewrite (script_rango_invalido _ _ _ L) in H. cbn [snd] in H. no_esta H.
Qed.

End Pipeline_correcto.

(** ** The pipeline on a small CSV *)

Section Pipeline_ejemplos.
Import StreamlitApp.

Local Abbreviation df_ejemplo := (cargar_datos to_datetime_iso csv_ejemplo).
Local Abbreviation julio_1 := (mk_date 2025 7 1).
Local Abbreviation julio_2 := (mk_date 2025 7 2).

(** The bad row of [csv_ejemplo] goes and the two good ones stay. *)
Example limpieza_ejemplo :
  cargar_datos to_datetime_iso csv_ejemplo =
  [ mk_fila (mk_datetime julio_1 8 30 0) (Some "Inversor-A") (Some 10) (Some 400)
            julio_1;
    mk_fila (mk_datetime julio_2 8 45 0) (Some "Inversor-B") (Some 20) (Some 500)
            julio_2 ].
Proof. reflexivity. Qed.

(** A whole run with both inverters and both days selected. *)
Example ejecucion_ejemplo :
  ejecutar to_datetime_iso csv_ejemplo [(Some "Inversor-A"); (Some "Inversor-B")]
           [julio_1; julio_2] =
  (sigue tt,
   [ sidebar_header "Filtros del Dashboard ☀️";
     asigna_tabla "df_filtrado" df_ejemplo;
     title "Dashboard de Rendimiento Fotovoltaico ☀️";
     markdown_rango julio_1 julio_2;
     header "KPIs de Rendimiento";
     asigna "energia_total_kwh" (Some (750 # 100));
     asigna "potencia_pico_kw" (Some 20);
     asigna "irradiancia_max" (Some 500);
     asigna "potencia_pico_sistema_kwp" (Some 100);
     asigna "hsp" (Some (750 # 10000));
     metric "Energía Total Generada" (Some (750 # 100));
     metric "Potencia AC Pico" (Some 20);
     metric "Irradiancia Máxima" (Some 500);
     metric "Horas Solares Pico (HSP)" (Some (750 # 10000)) ]).
Proof. reflexivity. Qed.

(** The power value of the bad row is nowhere in the cleaned table. *)
Example fila_mala_no_pasa :
  Forall (λ r, Potencia_AC_kW r ≠ Some 99) df_ejemplo.
Proof. by repeat constructor. Qed.

(** C4 on the example: one inverter against two, same energy. *)
Lemma hsp_es_energia_entre_capacidad_ejemplo :
  [(Some "Inversor-A")] ≠ [] ∧
  (∃ h, hsp (energia_total_kwh df_ejemplo)
            (potencia_pico_sistema_kwp [(Some "Inversor-A")]) = Some h ∧
        h == energia_total_kwh df_ejemplo / (50 * inject_Z (Z.of_nat 1))) ∧
  length [(Some "Inversor-A")] = 1%nat ∧
  length [(Some "Inversor-A"); (Some "Inversor-B")] = 2%nat ∧
  ∃ h1 h2,
    hsp (750 # 100) (potencia_pico_sistema_kwp [(Some "Inversor-A")]) = Some h1 ∧
    hsp (750 # 100) (potencia_pico_sistema_kwp [(Some "Inversor-A"); (Some "Inversor-B")])
      = Some h2 ∧
    h2 == h1 / 2.
Proof.
  split; [done|]. split.
  - by apply (proj1 hsp_es_energia_entre_capacidad).
  - split; [reflexivity|]. split; [reflexivity|].
    apply (proj2 hsp_es_energia_entre_capacidad); reflexivity.
Defined.

(** C8 on the example: no inverter selected. *)
Lemma sin_datos_detiene_antes_de_los_kpi_ejemplo :
  df_filtrado df_ejemplo [] julio_1 julio_2 = [] ∧
  script df_ejemplo [] [julio_1; julio_2] [] =
    (detenido,
     [ sidebar_header "Filtros del Dashboard ☀️";
       asigna_tabla "df_filtrado" [];
       warning "No hay datos para los filtros seleccionados." ]) ∧
  ∀ nombre valor,
    (asigna nombre valor ∉ (script df_ejemplo [] [julio_1; julio_2] []).2) ∧
    (metric nombre valor ∉ (script df_ejemplo [] [julio_1; julio_2] []).2).
Proof.
  split; [reflexivity|].
  apply (sin_datos_detiene_antes_de_los_kpi df_ejemplo [] julio_1 julio_2).
  reflexivity.
Defined.

(** C9 on the example: only the start date chosen. *)
Lemma rango_invalido_detiene_antes_de_filtrar_ejemplo :
  length [julio_1] ≠ 2%nat ∧
  script df_ejemplo [(Some "Inversor-A")] [julio_1] [] =
    (detenido,
     [ sidebar_header "Filtros del Dashboard ☀️";
       sidebar_error "Selecciona un rango de fechas válido (inicio y fin)." ]) ∧
  ∀ nombre tabla valor,
    (asigna_tabla nombre tabla ∉
       (script df_ejemplo [(Some "Inversor-A")] [julio_1] []).2) ∧
    (asigna nombre valor ∉ (script df_ejemplo [(Some "Inversor-A")] [julio_1] []).2) ∧
    (metric nombre valor ∉ (script df_ejemplo [(Some "Inversor-A")] [julio_1] []).2) ∧
    (warning nombre ∉ (script df_ejemplo [(Some "Inversor-A")] [julio_1] []).2).
Proof.
  split; [cbn; lia|].
  apply (rango_invalido_detiene_antes_de_filtrar df_ejemplo [(Some "Inversor-A")]
           [julio_1]).
  cbn; lia.
Defined.

(** C10 on the example: the run of [ejecucion_ejemplo] reaches the
    division, with divisor 100. *)
Lemma division_hsp_nunca_por_cero_ejemplo :
  asigna "hsp" (Some (750 # 10000)) ∈
    (script df_ejemplo [(Some "Inversor-A"); (Some "Inversor-B")] [julio_1; julio_2] []).2 ∧
  ∃ a b, [julio_1; julio_2] = [a; b] ∧
    df_filtrado df_ejemplo [(Some "Inversor-A"); (Some "Inversor-B")] a b ≠ [] ∧
    (∃ r, r ∈ df_ejemplo ∧
          Nombre_Inversor r ∈ [(Some "Inversor-A"); (Some "Inversor-B")]) ∧
    [(Some "Inversor-A"); (Some "Inversor-B")] ≠ [] ∧
    (50 ≤ potencia_pico_sistema_kwp [(Some "Inversor-A"); (Some "Inversor-B")])%Z ∧
    Some (750 # 10000) =
    Some (energia_total_kwh
            (df_filtrado df_ejemplo [(Some "Inversor-A"); (Some "Inversor-B")] a b)
          / inject_Z (potencia_pico_sistema_kwp [(Some "Inversor-A"); (Some "Inversor-B")])).
Proof.
  assert (asigna "hsp" (Some (750 # 10000)) ∈
    (script df_ejemplo [(Some "Inversor-A"); (Some "Inversor-B")] [julio_1; julio_2] []).2)
    as H.
  { apply (list_elem_of_lookup_2 _ 9%nat). reflexivity. }
  split; [exact H|].
  exact (division_hsp_nunca_por_cero df_ejemplo [(Some "Inversor-A"); (Some "Inversor-B")]
           [julio_1; julio_2] _ H).
Defined.

End Pipeline_ejemplos.

(** * Further properties *)

(** ** The generator: bounds, noise and the store *)

Section Generador_extra.
Import AppV1.

Variable np_sin : Q → Q.
Variable z : nat → Q.

Local Abbreviation d1 := (map (fila_dia1 np_sin z) (seq 0 72)).
Local Abbreviation d2 := (map (fila_dia2 np_sin z) (seq 0 72)).
Local Abbreviation d3 := (map (fila_dia3 np_sin z) (seq 0 72)).

Lemma irradiancia_base_no_negativa (i : nat) : 0 <= irradiancia_base_en np_sin z i.
Proof. apply np_maximum_cota. Qed.

(** X1.  In every row of the generated table, of any day, the power lies
    between 0 and irradiance x 0.15; so a row without irradiance has no
    power. *)
Theorem potencia_entre_cero_y_el_tope :
  ∃ df, ejecutar np_sin z = Some df ∧
    Forall (λ r, 0 <= Potencia r ∧ Potencia r <= Irradiancia r * 0.15 ∧
                 (Irradiancia r == 0 → Potencia r == 0)) df.
Proof.
  exists (d1 ++ d2 ++ d3). split; [apply ejecutar_forma_cerrada|].
  rewrite !Forall_app, !Forall_fmap.
  repeat split; apply Forall_forall; intros i _; cbn.
  - pose proof (irradiancia_base_no_negativa i).
    repeat split; [lra|lra|]. intros ->. reflexivity.
  - pose proof (np_maximum_cota 0
      (irradiancia_base_en np_sin z i * 0.4 + (0 + 20 * z (72 + i)%nat))) as H.
    fold (irradiancia_dia2_en np_sin z i) in H.
    repeat split; [lra|lra|]. intros ->. reflexivity.
  - pose proof (irradiancia_base_no_negativa i). unfold potencia_dia3_en.
    repeat case_decide; (repeat split; [lra|lra|]); intros ->; reflexivity.
Qed.

(** X2.  Day 2 is day 1 attenuated: at every index the two rows bear the
    same instant, the day-1 irradiance is the clamped base curve with the
    draw of that index, the day-2 irradiance is the clamp at 0 of 0.4 x the
    day-1 irradiance plus 20 x the draw 72 places later (the second call
    of the generator does not reuse the draws of the first), and the day-2
    power is its irradiance x 0.15. *)
Theorem dia_2_es_el_dia_1_atenuado :
  ∃ df, ejecutar np_sin z = Some df ∧
    ∀ i r1 r2,
      sub_tabla "Día 1 (Soleado)" df !! i = Some r1 →
      sub_tabla "Día 2 (Nublado)" df !! i = Some r2 →
      Timestamp r2 = Timestamp r1 ∧
      Irradiancia r1 =
        np_maximum 0
          (np_sin (np_pi * inject_Z (Z.of_nat i mod 24) / 24) ^ 2 * 1000
           + (0 + 5 * z i)) ∧
      Irradiancia r2 =
        np_maximum 0 (Irradiancia r1 * 0.4 + (0 + 20 * z (72 + i)%nat)) ∧
      Potencia r2 = Irradiancia r2 * 0.15.
Proof.
  exists (d1 ++ d2 ++ d3). split; [apply ejecutar_forma_cerrada|].
  rewrite sub_tabla_dia1, sub_tabla_dia2.
  intros i r1 r2 [_ ->]%lookup_map_seq [_ ->]%lookup_map_seq. done.
Qed.




End Generador_extra.

Section Generador_extra_ejemplos.
Import AppV1.


End Generador_extra_ejemplos.

(** ** The pipeline: widgets, filter, KPIs and charts *)

Section Pipeline_extra.
Import StreamlitApp.

(** *** The order of dates *)

Lemma fecha_le_refl (a : date) : fecha_le a a.
Proof. unfold fecha_le. lia. Qed.

Lemma fecha_le_trans (a b c : date) :
  fecha_le a b → fecha_le b c → fecha_le a c.
Proof. unfold fecha_le. lia. Qed.

Lemma fecha_le_total (a b : date) : fecha_le a b ∨ fecha_le b a.
Proof. unfold fecha_le. lia. Qed.

Lemma date_leb_false (a b : date) : date_leb a b = false → fecha_le b a.
Proof.
  intros H. destruct (fecha_le_total a b) as [Hab|]; [|done].
  apply date_leb_fecha_le in Hab. congruence.
Qed.

(** *** [unique], [min] and [max] *)

Lemma elem_of_unique_desde {A} `{EqDecision A} (vistos col : list A) (x : A) :
  x ∈ unique_desde vistos col ↔ x ∈ col ∧ x ∉ vistos.
Proof.
  revert vistos. induction col as [|y col IH]; intros vistos; cbn.
  - rewrite !elem_of_nil. tauto.
  - case_bool_decide as Hy.
    + rewrite IH, elem_of_cons. split; [tauto|].
      intros [[->|?] ?]; [done|tauto].
    + rewrite !elem_of_cons, IH, elem_of_cons.
      destruct (decide (x = y)) as [->|]; tauto.
Qed.

Lemma NoDup_unique_desde {A} `{EqDecision A} (vistos col : list A) :
  NoDup (unique_desde vistos col).
Proof.
  revert vistos. induction col as [|y col IH]; intros vistos; cbn.
  - constructor.
  - case_bool_decide; [apply IH|].
    apply NoDup_cons. split; [|apply IH].
    rewrite elem_of_unique_desde, elem_of_cons. tauto.
Qed.

Lemma elem_of_pd_unique {A} `{EqDecision A} (col : list A) (x : A) :
  x ∈ pd_unique col ↔ x ∈ col.
Proof.
  unfold pd_unique. rewrite elem_of_unique_desde, elem_of_nil. tauto.
Qed.

Lemma NoDup_pd_unique {A} `{EqDecision A} (col : list A) :
  NoDup (pd_unique col).
Proof. apply NoDup_unique_desde. Qed.

Lemma min_desde (col : list date) (d : date) :
  let m := fold_left (λ m x, if date_leb m x then m else x) col d in
  m ∈ d :: col ∧ fecha_le m d ∧ ∀ x, x ∈ col → fecha_le m x.
Proof.
  cbn zeta. revert d. induction col as [|y col IH]; intros d; cbn.
  - split; [left|]. split; [apply fecha_le_refl|]. by intros x ?%elem_of_nil.
  - destruct (date_leb d y) eqn:E.
    + destruct (IH d) as (Hin & Hd & Hall).
      apply date_leb_fecha_le in E. split; [|split; [done|]].
      * apply elem_of_cons in Hin as [->|?]; [left|by do 2 right].
      * intros x [->|?]%elem_of_cons; [|by apply Hall].
        by eapply fecha_le_trans.
    + destruct (IH y) as (Hin & Hy & Hall).
      apply date_leb_false in E. split; [by right|].
      split; [by eapply fecha_le_trans|].
      intros x [->|?]%elem_of_cons; [done|by apply Hall].
Qed.

Lemma max_desde (col : list date) (d : date) :
  let m := fold_left (λ m x, if date_leb x m then m else x) col d in
  m ∈ d :: col ∧ fecha_le d m ∧ ∀ x, x ∈ col → fecha_le x m.
Proof.
  cbn zeta. revert d. induction col as [|y col IH]; intros d; cbn.
  - split; [left|]. split; [apply fecha_le_refl|]. by intros x ?%elem_of_nil.
  - destruct (date_leb y d) eqn:E.
    + destruct (IH d) as (Hin & Hd & Hall).
      apply date_leb_fecha_le in E. split; [|split; [done|]].
      * apply elem_of_cons in Hin as [->|?]; [left|by do 2 right].
      * intros x [->|?]%elem_of_cons; [|by apply Hall].
        by eapply fecha_le_trans.
    + destruct (IH y) as (Hin & Hy & Hall).
      apply date_leb_false in E. split; [by right|].
      split; [by eapply fecha_le_trans|].
      intros x [->|?]%elem_of_cons; [done|by apply Hall].
Qed.

Lemma filter_todo {A} (P : A → Prop) `{∀ x, Decision (P x)} (l : list A) :
  Forall P l → filter P l = l.
Proof.
  induction 1 as [|x l Hx Hl IH]; [done|].
  by rewrite filter_cons_True, IH.
Qed.

Lemma filter_nada {A} (P : A → Prop) `{∀ x, Decision (P x)} (l : list A) :
  Forall (λ x, ¬ P x) l → filter P l = [].
Proof.
  induction 1 as [|x l Hx Hl IH]; [done|].
  by rewrite filter_cons_False.
Qed.

(** X5.  On a table with at least one row the widgets have defaults: the
    date input offers the earliest and the latest date of the table (in
    that order), the multiselect every inverter of the table; and with
    these defaults the filter keeps the whole table, so the run goes on to
    the KPIs. *)
Theorem por_defecto_no_se_filtra_nada (df : list fila) :
  df ≠ [] →
  ∃ a b, fechas_por_defecto df = Some [a; b] ∧
    a ∈ map Fecha df ∧ b ∈ map Fecha df ∧
    (∀ r, r ∈ df → fecha_le a (Fecha r) ∧ fecha_le (Fecha r) b) ∧
    df_filtrado df (inversores_por_defecto df) a b = df ∧
    (script df (inversores_por_defecto df) [a; b] []).1 = sigue tt.
Proof.
  intros Hdf. destruct df as [|r0 df]; [done|].
  unfold fechas_por_defecto, min_fecha, max_fecha.
  cbn [map pd_min_fecha pd_max_fecha mbind option_bind].
  destruct (min_desde (map Fecha df) (Fecha r0)) as (Hmin & Hmin0 & Hminall).
  destruct (max_desde (map Fecha df) (Fecha r0)) as (Hmax & Hmax0 & Hmaxall).
  set (a := fold_left (λ m x, if date_leb m x then m else x) _ _) in *.
  set (b := fold_left (λ m x, if date_leb x m then m else x) _ _) in *.
  exists a, b. split; [done|]. split; [done|]. split; [done|].
  assert (∀ r, r ∈ r0 :: df → fecha_le a (Fecha r) ∧ fecha_le (Fecha r) b)
    as Hall.
  { intros r [->|Hr]%elem_of_cons; [done|].
    split; [apply Hminall|apply Hmaxall]; by apply list_elem_of_fmap_2. }
  split; [done|].
  assert (df_filtrado (r0 :: df) (inversores_por_defecto (r0 :: df)) a b
          = r0 :: df) as E.
  { rewrite df_filtrado_filter. apply filter_todo, Forall_forall.
    intros r Hr. split; [|by apply Hall].
    apply elem_of_pd_unique. by apply list_elem_of_fmap_2. }
  split; [done|].
  rewrite script_con_datos; [done|]. by rewrite E.
Qed.

(** X6.  A range whose end is before its start selects nothing: the
    filtered table is empty and the run stops at the no-data warning. *)
Theorem rango_invertido_sin_datos
    (df : list fila) (sel : list (option string)) (a b : date) :
  ¬ fecha_le a b →
  df_filtrado df sel a b = [] ∧
  script df sel [a; b] [] =
    (detenido,
     [ sidebar_header "Filtros del Dashboard ☀️";
       asigna_tabla "df_filtrado" [];
       warning "No hay datos para los filtros seleccionados." ]).
Proof.
  intros H.
  assert (df_filtrado df sel a b = []) as E.
  { rewrite df_filtrado_filter. apply filter_nada, Forall_forall.
    intros r _ (_ & H1 & H2). apply H. by eapply fecha_le_trans. }
  split; [done|]. by apply script_sin_datos.
Qed.

(** X7.  Narrowing the criteria of a filtered table gives what the narrow
    criteria give on the whole table: with fewer inverters and a range
    inside the first one, filtering the filtered table is filtering the
    cleaned table; and the narrow result is part of the wide one. *)
Theorem filtrar_lo_filtrado_con_criterios_mas_estrechos
    (df : list fila) (sel sel' : list (option string)) (a b a' b' : date) :
  sel ⊆ sel' → fecha_le a' a → fecha_le b b' →
  df_filtrado (df_filtrado df sel' a' b') sel a b = df_filtrado df sel a b ∧
  df_filtrado df sel a b `sublist_of` df_filtrado df sel' a' b'.
Proof.
  intros Hsel Ha Hb.
  assert (df_filtrado (df_filtrado df sel' a' b') sel a b
          = df_filtrado df sel a b) as E.
  { rewrite !df_filtrado_filter. apply list_filter_filter_l.
    intros r (Hn & H1 & H2). split; [by apply Hsel|].
    split; by eapply fecha_le_trans. }
  split; [done|]. rewrite <- E, (df_filtrado_filter (df_filtrado _ _ _ _)).
  apply sublist_filter.
Qed.

(** X8.  Two sets of criteria can be applied in either order. *)
Theorem filtros_conmutan
    (df : list fila) (s1 s2 : list (option string)) (a1 b1 a2 b2 : date) :
  df_filtrado (df_filtrado df s1 a1 b1) s2 a2 b2 =
  df_filtrado (df_filtrado df s2 a2 b2) s1 a1 b1.
Proof.
  rewrite !df_filtrado_filter, !list_filter_filter.
  apply list_filter_iff. tauto.
Qed.

End Pipeline_extra.

Section Pipeline_extra_kpi.
Import StreamlitApp.

(** *** The maxima *)

Lemma pd_max_desde (col : list (option Q)) (acc : option Q) :
  let r := fold_left (λ acc x,
             match acc, x with
             | Some m, Some v => Some (if Qle_bool m v then v else m)
             | None, Some v => Some v
             | _, None => acc
             end) col acc in
  (r = None ↔ acc = None ∧ Forall (λ x, x = None) col) ∧
  (∀ m, r = Some m →
     (acc = Some m ∨ Some m ∈ col) ∧
     (∀ v, acc = Some v ∨ Some v ∈ col → v <= m)).
Proof.
  cbn zeta. revert acc. induction col as [|x col IH]; intros acc; cbn.
  - split.
    + split; [by intros ->|by intros [-> _]].
    + intros m ->. split; [by left|].
      intros v [[= ->]|?%elem_of_nil]; [apply Qle_refl|done].
  - destruct (IH (match acc, x with
                  | Some m, Some v => Some (if Qle_bool m v then v else m)
                  | None, Some v => Some v
                  | _, None => acc
                  end)) as [IHn IHs].
    split.
    + rewrite IHn, Forall_cons. clear. destruct acc, x; intuition congruence.
    + intros m Hm. destruct (IHs m Hm) as [Hin Hle]. split.
      * destruct Hin as [Hin|Hin]; [|by right; right].
        destruct acc as [a|], x as [v|]; try done.
        -- destruct (Qle_bool a v); injection Hin as <-;
             [right; left|by left].
        -- by left.
        -- injection Hin as <-. right; left.
      * intros w [Hw|[Hw|Hw]%elem_of_cons].
        -- subst acc. destruct x as [v|]; [|by apply Hle; left].
           destruct (Qle_bool w v) eqn:E.
           ++ apply Qle_bool_iff in E. eapply Qle_trans; [exact E|].
              apply Hle. by left.
           ++ apply Hle. by left.
        -- subst x. destruct acc as [a|]; [|by apply Hle; left].
           destruct (Qle_bool a w) eqn:E.
           ++ apply Hle. by left.
           ++ assert (w <= a) as Hwa.
              { apply Qlt_le_weak, Qnot_le_lt. intros H.
                apply Qle_bool_iff in H. congruence. }
              eapply Qle_trans; [exact Hwa|]. apply Hle. by left.
        -- apply Hle. by right.
Qed.

Lemma pd_max_columna (f : fila → option Q) (t : list fila) :
  (pd_max (map f t) = None ↔ ∀ r, r ∈ t → f r = None) ∧
  (∀ m, pd_max (map f t) = Some m →
     (∃ r, r ∈ t ∧ f r = Some m) ∧
     (∀ r v, r ∈ t → f r = Some v → v <= m)).
Proof.
  destruct (pd_max_desde (map f t) None) as [Hn Hs]. split.
  - unfold pd_max. rewrite Hn, Forall_fmap, Forall_forall.
    split; [by intros [_ ?]|done].
  - intros m Hm. destruct (Hs m Hm) as [[?|Hin] Hle]; [done|]. split.
    + apply list_elem_of_fmap in Hin as (r & ? & ?). by exists r.
    + intros r v Hr Hv. apply Hle. right. rewrite <- Hv.
      by apply list_elem_of_fmap_2.
Qed.

(** X9.  The peak power is the largest power value of the table: it is
    the value of some row and no row has a larger one; it is NaN exactly
    when no row has a power value.  The same holds of the maximum
    irradiance. *)
Theorem los_picos_son_maximos (t : list fila) :
  ((potencia_pico_kw t = None ↔ ∀ r, r ∈ t → Potencia_AC_kW r = None) ∧
   (∀ m, potencia_pico_kw t = Some m →
      (∃ r, r ∈ t ∧ Potencia_AC_kW r = Some m) ∧
      (∀ r v, r ∈ t → Potencia_AC_kW r = Some v → v <= m))) ∧
  ((irradiancia_max t = None ↔ ∀ r, r ∈ t → Irradiancia_GHI_W_m2 r = None) ∧
   (∀ m, irradiancia_max t = Some m →
      (∃ r, r ∈ t ∧ Irradiancia_GHI_W_m2 r = Some m) ∧
      (∀ r v, r ∈ t → Irradiancia_GHI_W_m2 r = Some v → v <= m))).
Proof. split; apply pd_max_columna. Qed.

End Pipeline_extra_kpi.

Section Pipeline_extra_graficos.
Import StreamlitApp.

(** *** One trace per inverter *)

Lemma df_inv_filter (t : list fila) (k : option string) :
  df_inv t k = filter (es_de k) t.
Proof.
  induction t as [|r t IH]; [done|].
  change (df_inv (r :: t) k)
    with (if match Nombre_Inversor r, k with
             | Some a, Some b => bool_decide (a = b)
             | _, _ => false
             end
          then r :: df_inv t k else df_inv t k).
  rewrite filter_cons, IH.
  destruct (decide (es_de k r)) as [(s & -> & ->)|H].
  - by rewrite bool_decide_eq_true_2.
  - destruct (Nombre_Inversor r) as [a|] eqn:Ea, k as [b|]; try done.
    case_bool_decide as Hab; [|done]. subst b. exfalso. apply H. by exists a.
Qed.

Lemma particion_por_nombre (ks : list (option string)) (t : list fila) :
  NoDup ks → (∀ r, r ∈ t → Nombre_Inversor r ∈ ks) →
  concat (map (λ k, filter (es_de k) t) ks) ≡ₚ filter con_nombre t.
Proof.
  intros Hks. revert t. induction Hks as [|k ks Hk Hks IH]; intros t Ht.
  - destruct t as [|r t]; [done|].
    exfalso. eapply elem_of_nil. apply (Ht r). left.
  - cbn [map concat].
    set (t' := filter (λ r, Nombre_Inversor r ≠ k) t).
    assert (map (λ k', filter (es_de k') t) ks
            = map (λ k', filter (es_de k') t') ks) as ->.
    { apply map_ext_in. intros k' Hk'%list_elem_of_In. unfold t'.
      symmetry. apply list_filter_filter_l.
      intros r (s & -> & Hr) Hn. rewrite Hr in Hn. by subst k. }
    rewrite IH.
    + rewrite <- (filter_app_complement (λ r, Nombre_Inversor r = k)
                    (filter con_nombre t)).
      apply Permutation_app.
      * rewrite list_filter_filter.
        replace (filter (es_de k) t)
          with (filter (λ r, Nombre_Inversor r = k ∧ con_nombre r) t);
          [done|].
        apply list_filter_iff. intros r. unfold es_de, con_nombre. split.
        -- intros [Hr [s Hs]]. exists s. by rewrite <- Hr.
        -- intros (s & -> & Hr). by rewrite Hr.
      * unfold t'. rewrite !list_filter_filter.
        replace (filter (λ r, con_nombre r ∧ Nombre_Inversor r ≠ k) t)
          with (filter (λ r, Nombre_Inversor r ≠ k ∧ con_nombre r) t);
          [done|].
        apply list_filter_iff. tauto.
    + intros r [Hne Hr]%list_elem_of_filter.
      pose proof (Ht r Hr) as [?|?]%elem_of_cons; done.
Qed.

(** [unique] lists the values in the order in which they first appear: of
    two values it lists, the earlier has an occurrence before every
    occurrence of the later. *)
Lemma unique_desde_orden {A} `{EqDecision A} (vistos col : list A)
    (i j : nat) (k1 k2 : A) :
  (i < j)%nat →
  unique_desde vistos col !! i = Some k1 →
  unique_desde vistos col !! j = Some k2 →
  ∃ p, col !! p = Some k1 ∧ k2 ∉ take p col.
Proof.
  revert vistos i j. induction col as [|x col IH]; intros vistos i j Hij; cbn.
  - by rewrite lookup_nil.
  - case_bool_decide as Hx.
    + intros H1 H2. destruct (IH _ _ _ Hij H1 H2) as (p & Hp & Hn).
      exists (S p). split; [done|]. cbn. apply not_elem_of_cons. split; [|done].
      intros ->. apply list_elem_of_lookup_2, elem_of_unique_desde in H2.
      tauto.
    + destruct i as [|i], j as [|j]; try lia; cbn.
      * intros [= <-] _. exists 0%nat. split; [done|]. cbn. apply not_elem_of_nil.
      * intros H1 H2.
        destruct (IH (x :: vistos) i j ltac:(lia) H1 H2) as (p & Hp & Hn).
        exists (S p). split; [done|]. cbn.
        apply not_elem_of_cons. split; [|done].
        intros ->. apply list_elem_of_lookup_2, elem_of_unique_desde in H2.
        destruct H2 as [_ H2]. apply H2. left.
Qed.

Lemma zip_puntos (l : list fila) :
  zip (map Timestamp l) (map Potencia_AC_kW l) = map punto l.
Proof. induction l as [|r l IH]; [done|]. cbn. by rewrite IH. Qed.

Lemma concat_map_puntos {K} (g : K → list fila) (ks : list K) :
  concat (map (λ k, map punto (g k)) ks) = map punto (concat (map g ks)).
Proof.
  induction ks as [|k ks IH]; [done|]. cbn [map concat].
  by rewrite IH, map_app.
Qed.

(** X12.  The time-series figure gets one power trace per name of the
    filtered table, each name once, in order of first appearance (of two
    names, the trace of the one that occurs first comes first); the trace
    of an inverter is named Potencia (name) and draws, in table order,
    the instants and power values of the rows of that inverter; a missing
    name (NaN) gets a trace named Potencia (nan) with no point, and it is
    the only trace without points; and the traces together draw every row
    that has a name exactly once, and no row without a name. *)
Theorem una_traza_por_inversor (t : list fila) :
  let nombres := map Nombre_Inversor t in
  let inversores := pd_unique nombres in
  NoDup inversores ∧
  (∀ k, k ∈ inversores ↔ ∃ r, r ∈ t ∧ Nombre_Inversor r = k) ∧
  (∀ i j k1 k2, (i < j)%nat →
     inversores !! i = Some k1 → inversores !! j = Some k2 →
     ∃ p, nombres !! p = Some k1 ∧ k2 ∉ take p nombres) ∧
  Forall2 (λ k tr,
      tr_name tr =
        String.append "Potencia ("
          (String.append (match k with Some s => s | None => "nan" end) ")") ∧
      tr_x tr = map Timestamp (filter (es_de k) t) ∧
      tr_y tr = map Potencia_AC_kW (filter (es_de k) t) ∧
      (tr_x tr = [] ↔ k = None))
    inversores (trazas_potencia t) ∧
  concat (map (λ tr, zip (tr_x tr) (tr_y tr)) (trazas_potencia t))
  ≡ₚ map punto (filter con_nombre t).
Proof.
  cbn zeta.
  assert (∀ k, k ∈ pd_unique (map Nombre_Inversor t)
               ↔ ∃ r, r ∈ t ∧ Nombre_Inversor r = k) as Hk.
  { intros k. rewrite elem_of_pd_unique. split.
    - intros (r & -> & Hr)%list_elem_of_fmap. by exists r.
    - intros (r & Hr & <-). by apply list_elem_of_fmap_2. }
  split; [apply NoDup_pd_unique|]. split; [done|]. split; [|split].
  - intros i j k1 k2. apply unique_desde_orden.
  - unfold trazas_potencia.
    change (map ?f ?l) with (f <$> l) at 1.
    apply Forall2_fmap_r, Forall_Forall2_diag, Forall_forall.
    intros k (r & Hr & Hn)%Hk. cbn. rewrite df_inv_filter.
    split; [by destruct k|]. split; [done|]. split; [done|]. split.
    + intros E%fmap_nil_inv. destruct k as [s|]; [|done].
      assert (r ∈ filter (es_de (Some s)) t) as Hin.
      { apply list_elem_of_filter. split; [|done]. by exists s. }
      rewrite E in Hin. by apply elem_of_nil in Hin.
    + intros ->. rewrite filter_nada; [done|].
      apply Forall_forall. by intros r' _ (s & ? & _).
  - unfold trazas_potencia. rewrite map_map. cbn.
    erewrite map_ext.
    2:{ intros k. rewrite df_inv_filter, zip_puntos. reflexivity. }
    rewrite <- (particion_por_nombre (pd_unique (map Nombre_Inversor t)) t).
    + by rewrite concat_map_puntos.
    + apply NoDup_pd_unique.
    + intros r Hr. apply elem_of_pd_unique. by apply list_elem_of_fmap_2.
Qed.

End Pipeline_extra_graficos.

Section Pipeline_extra_diurno.
Import StreamlitApp.

(** *** The daytime rows of the scatter and box plots *)




(** *** The mean irradiance per instant *)

Lemma fecha_le_antisym (a b : date) : fecha_le a b → fecha_le b a → a = b.
Proof.
  destruct a, b. unfold fecha_le. cbn. intros H1 H2. f_equal; lia.
Qed.

Lemma datetime_leb_datetime_le (a b : datetime) :
  datetime_leb a b = true ↔ datetime_le a b.
Proof.
  unfold datetime_leb, datetime_le.
  destruct (decide (dt_fecha a = dt_fecha b)) as [E|E].
  - rewrite E. pose proof (fecha_le_refl (dt_fecha b)) as R.
    transitivity
      ((dt_hora a < dt_hora b)%Z ∨
       (dt_hora a = dt_hora b ∧
        ((dt_minuto a < dt_minuto b)%Z ∨
         (dt_minuto a = dt_minuto b ∧ (dt_segundo a ≤ dt_segundo b)%Z))));
      [|tauto].
    destruct (Z.compare_spec (dt_hora a) (dt_hora b));
      [destruct (Z.compare_spec (dt_minuto a) (dt_minuto b))| |];
      rewrite ?Z.leb_le; split; intros; try done; lia.
  - rewrite date_leb_fecha_le. split.
    + intros H. left. split; [done|]. intros H'. apply E.
      by apply fecha_le_antisym.
    + intros [[? _]|(H1 & H2 & _)]; [done|].
      destruct E. by apply fecha_le_antisym.
Qed.

Lemma datetime_le_total (a b : datetime) : datetime_le a b ∨ datetime_le b a.
Proof.
  unfold datetime_le.
  assert ((dt_hora a < dt_hora b)%Z ∨
          (dt_hora a = dt_hora b ∧
           ((dt_minuto a < dt_minuto b)%Z ∨
            (dt_minuto a = dt_minuto b ∧ (dt_segundo a ≤ dt_segundo b)%Z))) ∨
          (dt_hora b < dt_hora a)%Z ∨
          (dt_hora b = dt_hora a ∧
           ((dt_minuto b < dt_minuto a)%Z ∨
            (dt_minuto b = dt_minuto a ∧ (dt_segundo b ≤ dt_segundo a)%Z))))
    by lia.
  destruct (fecha_le_total (dt_fecha a) (dt_fecha b));
    destruct (decide (fecha_le (dt_fecha b) (dt_fecha a)));
    destruct (decide (fecha_le (dt_fecha a) (dt_fecha b))); tauto.
Qed.

Lemma insertar_Permutation (x : datetime) (l : list datetime) :
  insertar x l ≡ₚ x :: l.
Proof.
  induction l as [|y l IH]; [done|]. cbn.
  destruct (datetime_leb x y); [done|]. by rewrite IH, Permutation_swap.
Qed.

Lemma ordenar_Permutation (l : list datetime) : ordenar l ≡ₚ l.
Proof.
  induction l as [|x l IH]; [done|]. cbn.
  by rewrite insertar_Permutation, IH.
Qed.

Lemma datetime_leb_false (x y : datetime) :
  datetime_leb x y = false → datetime_le y x.
Proof.
  intros E. destruct (datetime_le_total x y) as [H|H]; [|done].
  apply datetime_leb_datetime_le in H. congruence.
Qed.

Lemma insertar_Sorted (x : datetime) (l : list datetime) :
  Sorted datetime_le l → Sorted datetime_le (insertar x l).
Proof.
  induction 1 as [|y l Hl IH Hy]; cbn; [by repeat constructor|].
  destruct (datetime_leb x y) eqn:E.
  - apply datetime_leb_datetime_le in E.
    constructor; [by constructor|]. by constructor.
  - constructor; [done|].
    apply datetime_leb_false in E.
    destruct l as [|w l]; cbn; [by constructor|].
    destruct (datetime_leb x w); constructor; [done|].
    by inversion Hy.
Qed.

Lemma ordenar_Sorted (l : list datetime) : Sorted datetime_le (ordenar l).
Proof.
  induction l as [|x l IH]; cbn; [constructor|]. by apply insertar_Sorted.
Qed.

Lemma omap_id_map {A} (f : A → option Q) (l : list A) :
  omap id (map f l) = omap f l.
Proof.
  induction l as [|x l IH]; [done|]. cbn. rewrite IH. by destruct (f x).
Qed.

Lemma omap_nil_iff {A} (f : A → option Q) (l : list A) :
  omap f l = [] ↔ ∀ x, x ∈ l → f x = None.
Proof.
  induction l as [|x l IH]; cbn.
  - split; [by intros _ y ?%elem_of_nil|done].
  - destruct (f x) as [v|] eqn:E.
    + split; [done|]. intros H. specialize (H x ltac:(left)). congruence.
    + rewrite IH. split.
      * intros H y [->|?]%elem_of_cons; [done|by apply H].
      * intros H y Hy. apply H. by right.
Qed.

(** X15.  The irradiance series has one point per instant of the filtered
    table: its instants are exactly those of the table, each once, in
    increasing order.  The value at an instant is NaN exactly when no row
    of that instant has an irradiance value; and when just one value is
    present among the rows of an instant, the series bears that value. *)
Theorem una_irradiancia_por_instante (t : list fila) :
  let serie := df_irradiancia t in
  NoDup (map fst serie) ∧
  Sorted datetime_le (map fst serie) ∧
  (∀ ts, ts ∈ map fst serie ↔ ∃ r, r ∈ t ∧ Timestamp r = ts) ∧
  (∀ ts o, (ts, o) ∈ serie →
     (o = None ↔
      ∀ r, r ∈ t → Timestamp r = ts → Irradiancia_GHI_W_m2 r = None) ∧
     (∀ v, omap Irradiancia_GHI_W_m2 (filter (λ r, Timestamp r = ts) t) = [v] →
           ∃ m, o = Some m ∧ m == v)).
Proof.
  cbn zeta. unfold df_irradiancia.
  set (claves := ordenar (pd_unique (map Timestamp t))).
  assert (map fst (map (λ ts, (ts, pd_mean (map Irradiancia_GHI_W_m2
            (filter (λ r, Timestamp r = ts) t)))) claves) = claves) as Hfst.
  { rewrite map_map. cbn. apply map_id. }
  assert (∀ ts, ts ∈ claves ↔ ∃ r, r ∈ t ∧ Timestamp r = ts) as Hclaves.
  { intros ts. unfold claves.
    rewrite ordenar_Permutation, elem_of_pd_unique. split.
    - intros (r & -> & Hr)%list_elem_of_fmap. by exists r.
    - intros (r & Hr & <-). by apply list_elem_of_fmap_2. }
  rewrite Hfst. split; [|split; [|split]].
  - unfold claves. rewrite ordenar_Permutation. apply NoDup_pd_unique.
  - apply ordenar_Sorted.
  - done.
  - intros ts o (ts' & [= -> ->] & _)%list_elem_of_fmap.
    unfold pd_mean. rewrite omap_id_map. split.
    + destruct (omap Irradiancia_GHI_W_m2 _) as [|x xs] eqn:E.
      * split; [|done]. intros _ r Hr Hts.
        apply (proj1 (omap_nil_iff _ _) E). by apply list_elem_of_filter.
      * split; [done|]. intros H.
        assert (omap Irradiancia_GHI_W_m2
                  (filter (λ r, Timestamp r = ts') t) = []) as E'.
        { apply omap_nil_iff. intros r [? ?]%list_elem_of_filter.
          by apply H. }
        congruence.
    + intros v ->. eexists. split; [done|]. cbn. field.
Qed.

(** *** The three ways a run ends *)


End Pipeline_extra_diurno.

(** ** Widgets and charts on small CSVs *)

Section Pipeline_extra_ejemplos.
Import StreamlitApp.

Local Abbreviation df_ejemplo := (cargar_datos to_datetime_iso csv_ejemplo).
Local Abbreviation df_dos := (cargar_datos to_datetime_iso csv_dos_inversores).
Local Abbreviation julio_1 := (mk_date 2025 7 1).
Local Abbreviation julio_2 := (mk_date 2025 7 2).
Local Abbreviation a_las h m := (mk_datetime (mk_date 2025 7 1) h m 0).

Example widgets_ejemplo :
  lista_inversores df_dos = [Some "Inversor-B"; Some "Inversor-A"; None] ∧
  fechas_por_defecto df_ejemplo = Some [julio_1; julio_2] ∧
  fechas_por_defecto [] = None.
Proof. by vm_compute. Qed.

(** The row without a name is drawn by no trace. *)
Example trazas_ejemplo :
  trazas_potencia df_dos =
  [ mk_traza "Potencia (Inversor-B)" [a_las 12 15; a_las 12 0]
             [Some 28; None];
    mk_traza "Potencia (Inversor-A)" [a_las 12 0; a_las 12 15; a_las 21 0]
             [Some 30; Some 32; Some 0];
    mk_traza "Potencia (nan)" [] [] ].
Proof. reflexivity. Qed.

Example df_irradiancia_ejemplo :
  df_irradiancia df_dos =
  [ (a_las 12 0, Some (1600 # 2)); (a_las 12 15, Some (1660 # 2));
    (a_las 21 0, Some (3 # 1)); (a_las 21 15, None) ].
Proof. reflexivity. Qed.

Example df_diurno_ejemplo :
  map Timestamp (df_diurno df_dos) =
  [a_las 12 15; a_las 12 0; a_las 12 0; a_las 12 15].
Proof. reflexivity. Qed.

Example kpis_ejemplo :
  energia_total_kwh df_dos == 22.75 ∧
  potencia_pico_kw df_dos = Some 32 ∧
  irradiancia_max df_dos = Some 840.
Proof. by vm_compute. Qed.

(** X5 on the first CSV. *)
Lemma por_defecto_no_se_filtra_nada_ejemplo :
  df_ejemplo ≠ [] ∧
  ∃ a b, fechas_por_defecto df_ejemplo = Some [a; b] ∧
    a ∈ map Fecha df_ejemplo ∧ b ∈ map Fecha df_ejemplo ∧
    (∀ r, r ∈ df_ejemplo → fecha_le a (Fecha r) ∧ fecha_le (Fecha r) b) ∧
    df_filtrado df_ejemplo (inversores_por_defecto df_ejemplo) a b
      = df_ejemplo ∧
    (script df_ejemplo (inversores_por_defecto df_ejemplo) [a; b] []).1
      = sigue tt.
Proof.
  assert (df_ejemplo ≠ []) as H by (intros H; vm_compute in H; discriminate H).
  split; [exact H|]. exact (por_defecto_no_se_filtra_nada df_ejemplo H).
Defined.

(** X6 on the first CSV: from July 2 back to July 1. *)
Lemma rango_invertido_sin_datos_ejemplo :
  ¬ fecha_le julio_2 julio_1 ∧
  df_filtrado df_ejemplo [(Some "Inversor-A")] julio_2 julio_1 = [] ∧
  script df_ejemplo [(Some "Inversor-A")] [julio_2; julio_1] [] =
    (detenido,
     [ sidebar_header "Filtros del Dashboard ☀️";
       asigna_tabla "df_filtrado" [];
       warning "No hay datos para los filtros seleccionados." ]).
Proof.
  assert (¬ fecha_le julio_2 julio_1) as H by (unfold fecha_le; cbn; lia).
  split; [exact H|].
  exact (rango_invertido_sin_datos df_ejemplo [(Some "Inversor-A")] _ _ H).
Defined.

(** X7 on the first CSV: from both inverters and both days to inverter A
    on July 1. *)
Lemma filtrar_lo_filtrado_con_criterios_mas_estrechos_ejemplo :
  [(Some "Inversor-A")] ⊆ [(Some "Inversor-A"); (Some "Inversor-B")] ∧
  fecha_le julio_1 julio_1 ∧ fecha_le julio_1 julio_2 ∧
  df_filtrado
    (df_filtrado df_ejemplo [(Some "Inversor-A"); (Some "Inversor-B")] julio_1 julio_2)
    [(Some "Inversor-A")] julio_1 julio_1
  = df_filtrado df_ejemplo [(Some "Inversor-A")] julio_1 julio_1 ∧
  df_filtrado df_ejemplo [(Some "Inversor-A")] julio_1 julio_1
  `sublist_of`
  df_filtrado df_ejemplo [(Some "Inversor-A"); (Some "Inversor-B")] julio_1 julio_2.
Proof.
  assert ([(Some "Inversor-A")] ⊆ [(Some "Inversor-A"); (Some "Inversor-B")]) as H1.
  { intros x ->%list_elem_of_singleton. left. }
  assert (fecha_le julio_1 julio_1) as H2 by (unfold fecha_le; cbn; lia).
  assert (fecha_le julio_1 julio_2) as H3 by (unfold fecha_le; cbn; lia).
  split; [exact H1|]. split; [exact H2|]. split; [exact H3|].
  exact (filtrar_lo_filtrado_con_criterios_mas_estrechos df_ejemplo
           _ _ _ _ _ _ H1 H2 H3).
Defined.

End Pipeline_extra_ejemplos.
